(** * DeviceOrientationEventPump: a shallow embedding

    This development embeds
    [third_party/blink/renderer/modules/device_orientation/device_orientation_event_pump.cc]
    and states the properties of its significant-change filter, of the
    sample builder, and of the relative/absolute fallback state machine.

    C++ [double] values are IEEE 754 binary64 numbers.  They are modelled
    by [spec_float] at precision 53 and maximal exponent 1024, with the
    operations of the standard library's executable specification; every
    comparison below is therefore the comparison the compiled code runs,
    rounding included. *)

From Stdlib Require Import Bool List ZArith Lia.
From Stdlib Require Import Floats.SpecFloat.
Import ListNotations.

Set Implicit Arguments.

(** ** binary64 arithmetic *)

Module Double.

Definition prec : Z := 53.
Definition emax : Z := 1024.

Definition double : Type := spec_float.

Definition zero : double := S754_zero false.

(** [of_Z n] is the integer [n] as a double (exact for |n| < 2^53). *)
Definition of_Z (n : Z) : double := binary_normalize prec emax n 0 false.

(** [a - b], round to nearest even. *)
Definition fsub (a b : double) : double := SFsub prec emax a b.

(** [a / b], round to nearest even; used for decimal literals. *)
Definition fdiv (a b : double) : double := SFdiv prec emax a b.

(** [std::fabs]. *)
Definition fabs (a : double) : double := SFabs a.

(** [std::isnan]. *)
Definition isnan (a : double) : bool :=
  match a with
  | S754_nan => true
  | _ => false
  end.

(** [a >= b]: false as soon as one side is a NaN. *)
Definition fge (a b : double) : bool :=
  match SFcompare a b with
  | Some (Gt | Eq) => true
  | _ => false
  end.

(** [a != b]: the negation of IEEE equality, so true on a NaN and false
    on [+0.0] against [-0.0]. *)
Definition fne (a b : double) : bool := negb (SFeqb a b).

(** The literal [0.1], that is 0x1999999999999A * 2^-56: the double
    nearest to one tenth. *)
Definition lit_0_1 : double :=
  Eval vm_compute in fdiv (of_Z 1) (of_Z 10).

(** The literal [0.0999]. *)
Definition lit_0_0999 : double :=
  Eval vm_compute in fdiv (of_Z 999) (of_Z 10000).

End Double.

Import Double.

(** ** device::OrientationData

    The field names are the ones the pump reads and writes. *)

Record OrientationData : Type := mkOrientationData {
  alpha : double;
  beta : double;
  gamma : double;
  has_alpha : bool;
  has_beta : bool;
  has_gamma : bool;
  absolute : bool;
  all_available_sensors_are_active : bool
}.

(** Modelled from the spec: the default constructor [device::OrientationData()]
    is declared outside this file.  "A freshly constructed sample has all
    angles absent and is not absolute."  The stored angle values and the
    activity flag of a fresh sample are never read before being written;
    they are taken as zero and false. *)
Definition OrientationData_default : OrientationData :=
  {| alpha := zero; beta := zero; gamma := zero;
     has_alpha := false; has_beta := false; has_gamma := false;
     absolute := false;
     all_available_sensors_are_active := false |}.

(** ** The significant-change filter *)

(** [DeviceOrientationEventPump::kOrientationThreshold = 0.1]. *)
Definition kOrientationThreshold : double := lit_0_1.

Definition IsAngleDifferentThreshold
    (has_angle1 : bool) (angle1 : double)
    (has_angle2 : bool) (angle2 : double) : bool :=
  if negb (Bool.eqb has_angle1 has_angle2) then true
  else has_angle1 && fge (fabs (fsub angle1 angle2)) kOrientationThreshold.

Definition IsSignificantlyDifferent (data1 data2 : OrientationData) : bool :=
  IsAngleDifferentThreshold data1.(has_alpha) data1.(alpha)
                            data2.(has_alpha) data2.(alpha)
  || IsAngleDifferentThreshold data1.(has_beta) data1.(beta)
                               data2.(has_beta) data2.(beta)
  || IsAngleDifferentThreshold data1.(has_gamma) data1.(gamma)
                               data2.(has_gamma) data2.(gamma).

(** [ShouldFireEvent] is a const member: it reads the stored sample [data_]
    of the pump, passed here as [last], and the candidate [data]. *)
Definition ShouldFireEvent (last data : OrientationData) : bool :=
  if negb data.(all_available_sensors_are_active) then false
  else if negb data.(has_alpha) && negb data.(has_beta)
          && negb data.(has_gamma) then true
  else IsSignificantlyDifferent last data.

(** ** Sensor channels

    [SensorEntry], [SensorState] and the sensor provider are declared in the
    base class header, which is not part of the sources at hand; the pump
    only names [sensor], [sensor_state], [reading], [Start], [Stop],
    [ReadyOrErrored], [SensorReadingCouldBeRead] and
    [SensorState::SHOULD_SUSPEND].  The channel is therefore modelled from
    the specification's description of it. *)

Module Sensor.

(** [device::mojom::SensorType], the two kinds the constructor names. *)
Inductive SensorType : Type :=
| RELATIVE_ORIENTATION_EULER_ANGLES
| ABSOLUTE_ORIENTATION_EULER_ANGLES.

(** Modelled from the spec: the lifecycle states of a channel, "Idle (not
    yet started), Initializing, Active, ShouldSuspend, Suspended,
    Errored". *)
Inductive SensorState : Type :=
| IDLE
| INITIALIZING
| ACTIVE
| SHOULD_SUSPEND
| SUSPENDED
| ERRORED.

Definition SensorState_eqb (a b : SensorState) : bool :=
  match a, b with
  | IDLE, IDLE | INITIALIZING, INITIALIZING | ACTIVE, ACTIVE
  | SHOULD_SUSPEND, SHOULD_SUSPEND | SUSPENDED, SUSPENDED
  | ERRORED, ERRORED => true
  | _, _ => false
  end.

(** Modelled from the spec: the shared reading buffer "exposes
    {alpha, beta, gamma} angles and a timestamp"; the pump reads them as
    [reading.timestamp()] and [reading.orientation_euler.{x,y,z}]. *)
Record SensorReading : Type := mkSensorReading {
  timestamp : double;
  orientation_euler_x : double;
  orientation_euler_y : double;
  orientation_euler_z : double
}.

Definition SensorReading_default : SensorReading :=
  {| timestamp := zero; orientation_euler_x := zero;
     orientation_euler_y := zero; orientation_euler_z := zero |}.

(** Modelled from the spec: the sensor service handle, an "opaque
    capability used to request a subscription for a given sensor kind",
    which may reject the request. *)
Record SensorProvider : Type := mkSensorProvider {
  accepts_relative : bool;
  accepts_absolute : bool
}.

Definition accepts (provider : SensorProvider) (t : SensorType) : bool :=
  match t with
  | RELATIVE_ORIENTATION_EULER_ANGLES => provider.(accepts_relative)
  | ABSOLUTE_ORIENTATION_EULER_ANGLES => provider.(accepts_absolute)
  end.

(** Modelled from the spec: one channel.  [buffer_non_stale] records
    whether "the underlying reading buffer reports a non-stale value",
    and [reading] is what the buffer currently holds. *)
Record SensorEntry : Type := mkSensorEntry {
  type : SensorType;
  sensor_state : SensorState;
  reading : SensorReading;
  buffer_non_stale : bool
}.

Definition with_state (st : SensorState) (e : SensorEntry) : SensorEntry :=
  {| type := e.(type); sensor_state := st; reading := e.(reading);
     buffer_non_stale := e.(buffer_non_stale) |}.

(** Modelled from the spec: a channel is born "Idle (not yet started)", its
    buffer not yet populated. *)
Definition SensorEntry_new (t : SensorType) : SensorEntry :=
  {| type := t; sensor_state := IDLE; reading := SensorReading_default;
     buffer_non_stale := false |}.

(** Modelled from the spec: the member [sensor] is the channel's live
    subscription; the spec identifies holding one with the state
    [Active] ("at most one channel may hold a live (Active)
    subscription"). *)
Definition sensor (e : SensorEntry) : bool :=
  SensorState_eqb e.(sensor_state) ACTIVE.

(** Modelled from the spec: "Start(service_handle): requests a
    subscription for this channel's sensor kind.  No-op if already Active
    or Initializing.  Fails silently into Errored if the service rejects
    the request"; otherwise the channel is Initializing. *)
Definition Start (provider : SensorProvider) (e : SensorEntry)
  : SensorEntry :=
  match e.(sensor_state) with
  | ACTIVE | INITIALIZING => e
  | IDLE | SUSPENDED | SHOULD_SUSPEND | ERRORED =>
      if accepts provider e.(type) then with_state INITIALIZING e
      else with_state ERRORED e
  end.

(** Modelled from the spec: "Stop(): if Initializing, transition to
    ShouldSuspend.  If Active, transition directly to Suspended";
    "stopping an already-stopped channel is a no-op". *)
Definition Stop (e : SensorEntry) : SensorEntry :=
  match e.(sensor_state) with
  | INITIALIZING => with_state SHOULD_SUSPEND e
  | ACTIVE => with_state SUSPENDED e
  | _ => e
  end.

(** Modelled from the spec: "true once the channel has reached a terminal
    readiness state for this attempt (Active, Errored, or Suspended);
    false while still Initializing". *)
Definition ReadyOrErrored (e : SensorEntry) : bool :=
  match e.(sensor_state) with
  | ACTIVE | ERRORED | SUSPENDED => true
  | _ => false
  end.

(** Modelled from the spec: "true only when Active and the underlying
    reading buffer reports a non-stale value". *)
Definition SensorReadingCouldBeRead (e : SensorEntry) : bool :=
  SensorState_eqb e.(sensor_state) ACTIVE && e.(buffer_non_stale).

(** *** What the sensor service does to a channel *)

(** Modelled from the spec: "successful connection moves Initializing to
    Active"; a channel in ShouldSuspend is "actually suspended once
    initialization completes". *)
Definition OnConnected (e : SensorEntry) : SensorEntry :=
  match e.(sensor_state) with
  | INITIALIZING => with_state ACTIVE e
  | SHOULD_SUSPEND => with_state SUSPENDED e
  | _ => e
  end.

(** Modelled from the spec: "failure at any point moves to Errored". *)
Definition OnFailed (e : SensorEntry) : SensorEntry :=
  with_state ERRORED e.

(** Modelled from the spec: the service writes the shared buffer; the
    channel then sees the new reading, stale or not. *)
Definition OnBufferWritten (fresh : bool) (r : SensorReading)
    (e : SensorEntry) : SensorEntry :=
  {| type := e.(type); sensor_state := e.(sensor_state); reading := r;
     buffer_non_stale := fresh |}.

End Sensor.

Import Sensor.

(** ** The pump *)

(** Modelled from the spec: the frame handed to [SendStartMessage]; all the
    pump asks of it is the sensor service handle it can bind. *)
Record LocalFrame : Type := mkLocalFrame {
  interface_provider : SensorProvider
}.

(** The members of [DeviceOrientationEventPump].  [delivered] is the
    listener: the samples passed to [DidChangeDeviceOrientation], oldest
    first. *)
Record DeviceOrientationEventPump : Type := mkPump {
  relative_orientation_sensor_ : SensorEntry;
  absolute_orientation_sensor_ : SensorEntry;
  absolute_ : bool;
  fall_back_to_absolute_orientation_sensor_ : bool;
  should_suspend_absolute_orientation_sensor_ : bool;
  sensor_provider_ : option SensorProvider;
  data_ : OrientationData;
  delivered : list OrientationData
}.

Definition set_relative (e : SensorEntry) (p : DeviceOrientationEventPump) :=
  mkPump e p.(absolute_orientation_sensor_) p.(absolute_)
         p.(fall_back_to_absolute_orientation_sensor_)
         p.(should_suspend_absolute_orientation_sensor_)
         p.(sensor_provider_) p.(data_) p.(delivered).

Definition set_absolute (e : SensorEntry) (p : DeviceOrientationEventPump) :=
  mkPump p.(relative_orientation_sensor_) e p.(absolute_)
         p.(fall_back_to_absolute_orientation_sensor_)
         p.(should_suspend_absolute_orientation_sensor_)
         p.(sensor_provider_) p.(data_) p.(delivered).

Definition set_fall_back (b : bool) (p : DeviceOrientationEventPump) :=
  mkPump p.(relative_orientation_sensor_) p.(absolute_orientation_sensor_)
         p.(absolute_) b
         p.(should_suspend_absolute_orientation_sensor_)
         p.(sensor_provider_) p.(data_) p.(delivered).

Definition set_should_suspend (b : bool) (p : DeviceOrientationEventPump) :=
  mkPump p.(relative_orientation_sensor_) p.(absolute_orientation_sensor_)
         p.(absolute_) p.(fall_back_to_absolute_orientation_sensor_) b
         p.(sensor_provider_) p.(data_) p.(delivered).

Definition set_provider (o : option SensorProvider)
    (p : DeviceOrientationEventPump) :=
  mkPump p.(relative_orientation_sensor_) p.(absolute_orientation_sensor_)
         p.(absolute_) p.(fall_back_to_absolute_orientation_sensor_)
         p.(should_suspend_absolute_orientation_sensor_)
         o p.(data_) p.(delivered).

Definition set_data (d : OrientationData) (p : DeviceOrientationEventPump) :=
  mkPump p.(relative_orientation_sensor_) p.(absolute_orientation_sensor_)
         p.(absolute_) p.(fall_back_to_absolute_orientation_sensor_)
         p.(should_suspend_absolute_orientation_sensor_)
         p.(sensor_provider_) d p.(delivered).

Definition notify_listener (d : OrientationData)
    (p : DeviceOrientationEventPump) :=
  mkPump p.(relative_orientation_sensor_) p.(absolute_orientation_sensor_)
         p.(absolute_) p.(fall_back_to_absolute_orientation_sensor_)
         p.(should_suspend_absolute_orientation_sensor_)
         p.(sensor_provider_) p.(data_) (p.(delivered) ++ [d]).

(** The constructor: two idle channels, [absolute_(absolute)],
    [fall_back_to_absolute_orientation_sensor_(!absolute)], no provider
    bound, nothing delivered.  [should_suspend_absolute_orientation_sensor_]
    and [data_] take their in-class defaults. *)
Definition DeviceOrientationEventPump_new (absolute : bool)
  : DeviceOrientationEventPump :=
  {| relative_orientation_sensor_ :=
       SensorEntry_new RELATIVE_ORIENTATION_EULER_ANGLES;
     absolute_orientation_sensor_ :=
       SensorEntry_new ABSOLUTE_ORIENTATION_EULER_ANGLES;
     absolute_ := absolute;
     fall_back_to_absolute_orientation_sensor_ := negb absolute;
     should_suspend_absolute_orientation_sensor_ := false;
     sensor_provider_ := None;
     data_ := OrientationData_default;
     delivered := [] |}.

(** [SendStartMessage]: bind the provider if there is none, then start the
    absolute channel in absolute mode, and otherwise arm the fallback and
    start the relative channel. *)
Definition SendStartMessage (frame : LocalFrame)
    (p : DeviceOrientationEventPump) : DeviceOrientationEventPump :=
  let provider :=
    match p.(sensor_provider_) with
    | Some bound => bound
    | None => frame.(interface_provider)
    end in
  let p := set_provider (Some provider) p in
  if p.(absolute_) then
    set_absolute (Start provider p.(absolute_orientation_sensor_)) p
  else
    let p := set_fall_back true p in
    let p := set_should_suspend false p in
    set_relative (Start provider p.(relative_orientation_sensor_)) p.

(** [SendStopMessage]: stop relative, remember a pending suspension of the
    fallback, stop absolute, reset the cached sample. *)
Definition SendStopMessage (p : DeviceOrientationEventPump)
  : DeviceOrientationEventPump :=
  let p := set_relative (Stop p.(relative_orientation_sensor_)) p in
  let p :=
    if SensorState_eqb p.(relative_orientation_sensor_).(sensor_state)
                       SHOULD_SUSPEND
       && p.(fall_back_to_absolute_orientation_sensor_)
    then set_should_suspend true p
    else p in
  let p := set_absolute (Stop p.(absolute_orientation_sensor_)) p in
  set_data OrientationData_default p.

(** [GetDataFromSharedMemory(&data)]: the fields of [data] that the code
    does not assign keep the value they came in with. *)
Definition fill_from (r : SensorReading) (is_absolute : bool)
    (data : OrientationData) : OrientationData :=
  {| alpha := r.(orientation_euler_z);
     beta := r.(orientation_euler_x);
     gamma := r.(orientation_euler_y);
     has_alpha := negb (isnan r.(orientation_euler_z));
     has_beta := negb (isnan r.(orientation_euler_x));
     has_gamma := negb (isnan r.(orientation_euler_y));
     absolute := is_absolute;
     all_available_sensors_are_active :=
       data.(all_available_sensors_are_active) |}.

Definition set_all_active (b : bool) (data : OrientationData)
  : OrientationData :=
  {| alpha := data.(alpha); beta := data.(beta); gamma := data.(gamma);
     has_alpha := data.(has_alpha); has_beta := data.(has_beta);
     has_gamma := data.(has_gamma); absolute := data.(absolute);
     all_available_sensors_are_active := b |}.

Definition set_is_absolute (b : bool) (data : OrientationData)
  : OrientationData :=
  {| alpha := data.(alpha); beta := data.(beta); gamma := data.(gamma);
     has_alpha := data.(has_alpha); has_beta := data.(has_beta);
     has_gamma := data.(has_gamma); absolute := b;
     all_available_sensors_are_active :=
       data.(all_available_sensors_are_active) |}.

Definition GetDataFromSharedMemory (p : DeviceOrientationEventPump)
    (data : OrientationData) : OrientationData :=
  let data := set_all_active true data in
  if negb p.(absolute_)
     && SensorReadingCouldBeRead p.(relative_orientation_sensor_) then
    let r := p.(relative_orientation_sensor_).(reading) in
    let data := set_all_active (fne r.(timestamp) zero) data in
    if negb data.(all_available_sensors_are_active) then data
    else fill_from r false data
  else if SensorReadingCouldBeRead p.(absolute_orientation_sensor_) then
    let r := p.(absolute_orientation_sensor_).(reading) in
    let data := set_all_active (fne r.(timestamp) zero) data in
    if negb data.(all_available_sensors_are_active) then data
    else fill_from r true data
  else set_is_absolute p.(absolute_) data.

(** [FireEvent], the tick handler. *)
Definition FireEvent (p : DeviceOrientationEventPump)
  : DeviceOrientationEventPump :=
  let data := GetDataFromSharedMemory p OrientationData_default in
  if ShouldFireEvent p.(data_) data then
    notify_listener data (set_data data p)
  else p.

(** Modelled from the spec: the base class's
    [DeviceSensorEventPump::DidStartIfPossible] is "the default became-ready
    notification path (external collaborator)"; it touches none of the
    members above. *)
Definition DeviceSensorEventPump_DidStartIfPossible
    (p : DeviceOrientationEventPump) : DeviceOrientationEventPump := p.

(** The condition of the [if] in [DidStartIfPossible]. *)
Definition fallback_condition (p : DeviceOrientationEventPump) : bool :=
  negb p.(absolute_)
  && negb (sensor p.(relative_orientation_sensor_))
  && p.(fall_back_to_absolute_orientation_sensor_)
  && match p.(sensor_provider_) with Some _ => true | None => false end.

(** The body of that [if], run with the bound provider. *)
Definition fall_back_to_absolute (provider : SensorProvider)
    (p : DeviceOrientationEventPump) : DeviceOrientationEventPump :=
  let p := set_fall_back false p in
  let p := set_absolute (Start provider p.(absolute_orientation_sensor_)) p in
  if p.(should_suspend_absolute_orientation_sensor_) then
    let p :=
      set_absolute (with_state SHOULD_SUSPEND
                               p.(absolute_orientation_sensor_)) p in
    set_should_suspend false p
  else p.

Definition DidStartIfPossible (p : DeviceOrientationEventPump)
  : DeviceOrientationEventPump :=
  match p.(sensor_provider_) with
  | Some provider =>
      if fallback_condition p then fall_back_to_absolute provider p
      else DeviceSensorEventPump_DidStartIfPossible p
  | None => DeviceSensorEventPump_DidStartIfPossible p
  end.

(** [SensorsReadyOrErrored]: [None] is a failed [DCHECK]. *)
Definition SensorsReadyOrErrored (p : DeviceOrientationEventPump)
  : option bool :=
  if negb (ReadyOrErrored p.(relative_orientation_sensor_))
     || negb (ReadyOrErrored p.(absolute_orientation_sensor_)) then
    Some false
  else if negb (sensor p.(relative_orientation_sensor_))
          || negb (sensor p.(absolute_orientation_sensor_)) then
    Some true
  else None.

(** ** Runs of the pump

    The scheduler calls the pump; the sensor service, asynchronously,
    resolves connections and writes the shared buffers. *)

Inductive Call : Type :=
| CallSendStartMessage (frame : LocalFrame)
| CallSendStopMessage
| CallDidStartIfPossible
| CallFireEvent.

(** Modelled from the spec: what reaches a channel from the sensor service,
    a connection that succeeds, one that fails, a write to the shared
    buffer. *)
Inductive ServiceEvent : Type :=
| Connected (t : SensorType)
| Failed (t : SensorType)
| BufferWritten (t : SensorType) (fresh : bool) (r : SensorReading).

Inductive Event : Type :=
| FromScheduler (c : Call)
| FromService (e : ServiceEvent).

Definition on_channel (t : SensorType) (f : SensorEntry -> SensorEntry)
    (p : DeviceOrientationEventPump) : DeviceOrientationEventPump :=
  match t with
  | RELATIVE_ORIENTATION_EULER_ANGLES =>
      set_relative (f p.(relative_orientation_sensor_)) p
  | ABSOLUTE_ORIENTATION_EULER_ANGLES =>
      set_absolute (f p.(absolute_orientation_sensor_)) p
  end.

Definition call (c : Call) (p : DeviceOrientationEventPump)
  : DeviceOrientationEventPump :=
  match c with
  | CallSendStartMessage frame => SendStartMessage frame p
  | CallSendStopMessage => SendStopMessage p
  | CallDidStartIfPossible => DidStartIfPossible p
  | CallFireEvent => FireEvent p
  end.

Definition service (e : ServiceEvent) (p : DeviceOrientationEventPump)
  : DeviceOrientationEventPump :=
  match e with
  | Connected t => on_channel t OnConnected p
  | Failed t => on_channel t OnFailed p
  | BufferWritten t fresh r => on_channel t (OnBufferWritten fresh r) p
  end.

Definition step (ev : Event) (p : DeviceOrientationEventPump)
  : DeviceOrientationEventPump :=
  match ev with
  | FromScheduler c => call c p
  | FromService e => service e p
  end.

Definition run_calls (calls : list Call) (p : DeviceOrientationEventPump)
  : DeviceOrientationEventPump :=
  fold_left (fun q c => call c q) calls p.

Definition run (evs : list Event) (p : DeviceOrientationEventPump)
  : DeviceOrientationEventPump :=
  fold_left (fun q ev => step ev q) evs p.

(** *** Vocabulary of the properties *)

(** At most one channel holds a live subscription: the [DCHECK] of
    [SensorsReadyOrErrored]. *)
Definition at_most_one_live (p : DeviceOrientationEventPump) : Prop :=
  sensor p.(relative_orientation_sensor_)
  && sensor p.(absolute_orientation_sensor_) = false.

(** A start cycle runs from one [SendStartMessage] to the next: inside it
    no event is a [SendStartMessage]. *)
Definition is_start (ev : Event) : bool :=
  match ev with
  | FromScheduler (CallSendStartMessage _) => true
  | _ => false
  end.

Definition within_cycle (evs : list Event) : Prop :=
  forallb (fun ev => negb (is_start ev)) evs = true.

Definition is_DidStartIfPossible (ev : Event) : bool :=
  match ev with
  | FromScheduler CallDidStartIfPossible => true
  | _ => false
  end.

(** How many times, along a run, [DidStartIfPossible] took its fallback
    branch and started the absolute channel. *)
Fixpoint fallback_starts (p : DeviceOrientationEventPump)
    (evs : list Event) : nat :=
  match evs with
  | [] => 0
  | ev :: rest =>
      (if is_DidStartIfPossible ev && fallback_condition p then 1 else 0)
      + fallback_starts (step ev p) rest
  end.

(** The relative channel is in the middle of its initialization: started and
    not yet resolved, whether or not a stop has already been recorded. *)
Definition relative_mid_initialization (p : DeviceOrientationEventPump)
  : Prop :=
  p.(relative_orientation_sensor_).(sensor_state) = INITIALIZING
  \/ p.(relative_orientation_sensor_).(sensor_state) = SHOULD_SUSPEND.

(** The sample a tick builds: [FireEvent] hands a fresh [OrientationData]
    to [GetDataFromSharedMemory]. *)
Definition tick_sample (p : DeviceOrientationEventPump) : OrientationData :=
  GetDataFromSharedMemory p OrientationData_default.

(** Along the run, no tick builds a live sample. *)
Fixpoint no_live_tick (p : DeviceOrientationEventPump) (evs : list Event)
  : Prop :=
  match evs with
  | [] => True
  | ev :: rest =>
      (ev = FromScheduler CallFireEvent ->
       (tick_sample p).(all_available_sensors_are_active) = false)
      /\ no_live_tick (step ev p) rest
  end.

(** All three angles of a sample are absent. *)
Definition all_absent (d : OrientationData) : bool :=
  negb d.(has_alpha) && negb d.(has_beta) && negb d.(has_gamma).

(** Two samples carry the same angles: same presence flags, same values. *)
Definition same_angles (a b : OrientationData) : Prop :=
  a.(has_alpha) = b.(has_alpha) /\ a.(has_beta) = b.(has_beta)
  /\ a.(has_gamma) = b.(has_gamma)
  /\ a.(alpha) = b.(alpha) /\ a.(beta) = b.(beta) /\ a.(gamma) = b.(gamma).

(** Neither channel can be read on this tick: "relative not readable or
    pump in absolute mode, and absolute not readable". *)
Definition nothing_readable (p : DeviceOrientationEventPump) : Prop :=
  (SensorReadingCouldBeRead p.(relative_orientation_sensor_) = false
   \/ p.(absolute_) = true)
  /\ SensorReadingCouldBeRead p.(absolute_orientation_sensor_) = false.

(** The reading of the source a tick selects: relative when the pump is not
    in absolute mode and relative can be read, absolute when absolute can be
    read, none otherwise. *)
Definition selected_reading (p : DeviceOrientationEventPump)
  : option SensorReading :=
  if negb p.(absolute_)
     && SensorReadingCouldBeRead p.(relative_orientation_sensor_) then
    Some p.(relative_orientation_sensor_).(reading)
  else if SensorReadingCouldBeRead p.(absolute_orientation_sensor_) then
    Some p.(absolute_orientation_sensor_).(reading)
  else None.

(** *** The filter as the specification words it

    "An axis differs significantly if its presence flag changed between
    last and candidate, or both are present and
    |candidate.axis - last.axis| >= 0.1 (degrees)." *)

Definition angle_delta (candidate_axis last_axis : double) : double :=
  fabs (fsub candidate_axis last_axis).

Definition axis_differs_significantly
    (has_last : bool) (last_axis : double)
    (has_candidate : bool) (candidate_axis : double) : Prop :=
  has_last <> has_candidate
  \/ (has_last = true /\ has_candidate = true
      /\ fge (angle_delta candidate_axis last_axis) lit_0_1 = true).

Definition some_axis_differs_significantly (last candidate : OrientationData)
  : Prop :=
  axis_differs_significantly last.(has_alpha) last.(alpha)
                             candidate.(has_alpha) candidate.(alpha)
  \/ axis_differs_significantly last.(has_beta) last.(beta)
                                candidate.(has_beta) candidate.(beta)
  \/ axis_differs_significantly last.(has_gamma) last.(gamma)
                                candidate.(has_gamma) candidate.(gamma).

(** A sample with only [alpha] present. *)
Definition alpha_only (a : double) (active : bool) : OrientationData :=
  {| alpha := a; beta := zero; gamma := zero;
     has_alpha := true; has_beta := false; has_gamma := false;
     absolute := false; all_available_sensors_are_active := active |}.

(** *** Concrete scenarios *)

(** A frame whose sensor service grants both kinds of subscription. *)
Definition frame_granting : LocalFrame :=
  {| interface_provider :=
       {| accepts_relative := true; accepts_absolute := true |} |}.

(** A buffer content that has not been populated yet: timestamp zero. *)
Definition reading_unpopulated : SensorReading :=
  {| timestamp := zero;
     orientation_euler_x := of_Z 10;
     orientation_euler_y := of_Z 20;
     orientation_euler_z := of_Z 30 |}.

(** A populated buffer content. *)
Definition reading_populated : SensorReading :=
  {| timestamp := of_Z 1;
     orientation_euler_x := of_Z 10;
     orientation_euler_y := of_Z 20;
     orientation_euler_z := of_Z 30 |}.

(** A pump in relative mode whose relative channel connected and whose
    shared buffer holds [r]. *)
Definition pump_reading_relative (r : SensorReading)
  : DeviceOrientationEventPump :=
  run [FromScheduler (CallSendStartMessage frame_granting);
       FromService (Connected RELATIVE_ORIENTATION_EULER_ANGLES);
       FromService (BufferWritten RELATIVE_ORIENTATION_EULER_ANGLES true r)]
      (DeviceOrientationEventPump_new false).

(** A pump in relative mode just started, the relative channel still
    initializing. *)
Definition pump_relative_initializing : DeviceOrientationEventPump :=
  SendStartMessage frame_granting (DeviceOrientationEventPump_new false).

(** *** Vocabulary of the trace properties *)

Definition is_tick (ev : Event) : bool :=
  match ev with
  | FromScheduler CallFireEvent => true
  | _ => false
  end.

Definition is_stop (ev : Event) : bool :=
  match ev with
  | FromScheduler CallSendStopMessage => true
  | _ => false
  end.

(** The number of ticks, and of [SendStartMessage] calls, in a run. *)
Definition ticks (evs : list Event) : nat := length (filter is_tick evs).

Definition starts (evs : list Event) : nat := length (filter is_start evs).

(** No [SendStopMessage] in the run. *)
Definition without_stop (evs : list Event) : Prop :=
  forallb (fun ev => negb (is_stop ev)) evs = true.

(** A sample flags an angle as present only when its value is a number. *)
Definition presence_consistent (d : OrientationData) : Prop :=
  (d.(has_alpha) = true -> isnan d.(alpha) = false)
  /\ (d.(has_beta) = true -> isnan d.(beta) = false)
  /\ (d.(has_gamma) = true -> isnan d.(gamma) = false).

(** Each sample of the list passes the filter against the one before it,
    the first against [prev]. *)
Fixpoint well_spaced (prev : OrientationData) (l : list OrientationData)
  : Prop :=
  match l with
  | [] => True
  | d :: rest => ShouldFireEvent prev d = true /\ well_spaced d rest
  end.

(** [n] ticks in a row. *)
Definition tick_n (n : nat) (p : DeviceOrientationEventPump)
  : DeviceOrientationEventPump :=
  Nat.iter n FireEvent p.

(** *** Vocabulary of the calling discipline *)





(** * Properties *)

(** ** binary64 facts used by the filter *)

Section DoubleFacts.

Lemma binary_round_aux_abs (sx : bool) (mx ex : Z) (lx : location) :
  SFabs (binary_round_aux prec emax sx mx ex lx)
  = SFabs (binary_round_aux prec emax false mx ex lx).
Proof.
  unfold binary_round_aux.
  destruct (shr_fexp prec emax mx ex lx) as [mrs1 e1].
  destruct (shr_fexp prec emax _ e1 loc_Exact) as [mrs2 e2].
  destruct (shr_m mrs2); [reflexivity | | reflexivity].
  destruct (Z.leb e2 (Z.sub emax prec)); reflexivity.
Qed.

Lemma binary_round_abs (sx : bool) (m : positive) (e : Z) :
  SFabs (binary_round prec emax sx m e)
  = SFabs (binary_round prec emax false m e).
Proof.
  unfold binary_round.
  destruct (shl_align m e _) as [mz ez].
  apply binary_round_aux_abs.
Qed.

Lemma binary_normalize_abs_opp (z e : Z) (szero : bool) :
  SFabs (binary_normalize prec emax (- z) e szero)
  = SFabs (binary_normalize prec emax z e szero).
Proof.
  destruct z as [|m|m]; cbn [Z.opp binary_normalize]; [reflexivity | |].
  - apply binary_round_abs.
  - symmetry. apply binary_round_abs.
Qed.

(** [|a - b|] and [|b - a|] are the same double. *)
Lemma fabs_fsub_sym (a b : double) : fabs (fsub a b) = fabs (fsub b a).
Proof.
  unfold fabs, fsub.
  destruct a as [sa|sa| |sa ma ea], b as [sb|sb| |sb mb eb];
    try reflexivity;
    try (destruct sa, sb; reflexivity);
    try (destruct sa; reflexivity);
    try (destruct sb; reflexivity).
  cbn [SFsub]. rewrite (Z.min_comm eb ea).
  rewrite <- binary_normalize_abs_opp. f_equal. f_equal. lia.
Qed.

(** A double minus itself is a zero, or a NaN when it is not finite. *)
Lemma fabs_fsub_self (a : double) :
  fabs (fsub a a) = zero \/ fabs (fsub a a) = S754_nan.
Proof.
  unfold fabs, fsub, zero.
  destruct a as [s|s| |s m e]; cbn [SFsub].
  - left. destruct s; reflexivity.
  - right. destruct s; reflexivity.
  - right. reflexivity.
  - left. rewrite Z.sub_diag. reflexivity.
Qed.

Lemma fge_self_delta (a : double) :
  fge (fabs (fsub a a)) kOrientationThreshold = false.
Proof.
  destruct (fabs_fsub_self a) as [-> | ->]; reflexivity.
Qed.

End DoubleFacts.

(** ** The significant-change filter *)

Section Filter.

Lemma IsAngleDifferentThreshold_same (has : bool) (a : double) :
  IsAngleDifferentThreshold has a has a = false.
Proof.
  unfold IsAngleDifferentThreshold.
  rewrite Bool.eqb_reflx. cbn [negb].
  rewrite fge_self_delta. apply andb_false_r.
Qed.

Lemma IsSignificantlyDifferent_same (a b : OrientationData) :
  same_angles a b -> IsSignificantlyDifferent a b = false.
Proof.
  intros (Ha & Hb & Hg & Va & Vb & Vg).
  unfold IsSignificantlyDifferent.
  rewrite Ha, Hb, Hg, Va, Vb, Vg.
  now rewrite !IsAngleDifferentThreshold_same.
Qed.

(** The code's per-axis test says what the specification's words say, the
    subtraction being taken in either order. *)
Lemma IsAngleDifferentThreshold_spec
    (has_last : bool) (l : double) (has_candidate : bool) (c : double) :
  IsAngleDifferentThreshold has_last l has_candidate c = true
  <-> axis_differs_significantly has_last l has_candidate c.
Proof.
  unfold IsAngleDifferentThreshold, axis_differs_significantly, angle_delta,
    kOrientationThreshold.
  rewrite (fabs_fsub_sym c l).
  destruct has_last, has_candidate; cbn [Bool.eqb negb andb]; split;
    try (intros _; left; discriminate);
    try (intros H; right; now repeat split);
    try (intros [H | (H1 & H2 & H3)]; congruence).
Qed.

Lemma IsSignificantlyDifferent_spec (last candidate : OrientationData) :
  IsSignificantlyDifferent last candidate = true
  <-> some_axis_differs_significantly last candidate.
Proof.
  unfold IsSignificantlyDifferent, some_axis_differs_significantly.
  rewrite !orb_true_iff, !IsAngleDifferentThreshold_spec. tauto.
Qed.

Lemma ShouldFireEvent_inactive (last data : OrientationData) :
  data.(all_available_sensors_are_active) = false ->
  ShouldFireEvent last data = false.
Proof.
  intros H. unfold ShouldFireEvent. now rewrite H.
Qed.

Lemma ShouldFireEvent_from_default (data : OrientationData) :
  data.(all_available_sensors_are_active) = true ->
  ShouldFireEvent OrientationData_default data = true.
Proof.
  intros H. unfold ShouldFireEvent, IsSignificantlyDifferent,
    IsAngleDifferentThreshold. rewrite H.
  cbn [negb OrientationData_default has_alpha has_beta has_gamma].
  destruct (has_alpha data), (has_beta data), (has_gamma data); reflexivity.
Qed.

(** C4, as stated, fails: a candidate with every angle absent and all
    sensors active fires against an identical stored sample. *)
Lemma identical_all_null_samples_fire :
  same_angles (set_all_active true OrientationData_default)
              (set_all_active true OrientationData_default)
  /\ ShouldFireEvent (set_all_active true OrientationData_default)
                     (set_all_active true OrientationData_default) = true.
Proof.
  split; [repeat split | reflexivity].
Qed.

(** C4, amended: for samples with identical angle values and presence
    flags, [ShouldFireEvent] returns false unless the candidate has all
    sensors active and every angle absent, the all-null event, in which
    case it returns true. *)
Theorem ShouldFireEvent_identical (last data : OrientationData) :
  same_angles last data ->
  ShouldFireEvent last data
  = data.(all_available_sensors_are_active) && all_absent data.
Proof.
  intros H. unfold ShouldFireEvent, all_absent.
  rewrite (IsSignificantlyDifferent_same H).
  destruct (all_available_sensors_are_active data); cbn [negb andb];
    [| reflexivity].
  destruct (negb (has_alpha data) && negb (has_beta data)
            && negb (has_gamma data)); reflexivity.
Qed.

Lemma ShouldFireEvent_identical_witness :
  ShouldFireEvent (alpha_only lit_0_1 true) (alpha_only lit_0_1 true)
  = false.
Proof.
  rewrite (@ShouldFireEvent_identical (alpha_only lit_0_1 true)
             (alpha_only lit_0_1 true)).
  - reflexivity.
  - repeat split.
Defined.

(** C6: a candidate whose three angles are all absent and whose
    all-sensors-active flag is true fires, whatever the stored sample,
    all-absent or not. *)
Theorem ShouldFireEvent_all_null (last data : OrientationData) :
  all_absent data = true ->
  data.(all_available_sensors_are_active) = true ->
  ShouldFireEvent last data = true.
Proof.
  intros Habs Hact. unfold ShouldFireEvent.
  rewrite Hact. cbn [negb]. unfold all_absent in Habs. now rewrite Habs.
Qed.

Lemma ShouldFireEvent_all_null_witness :
  ShouldFireEvent OrientationData_default
                  (set_all_active true OrientationData_default) = true.
Proof.
  apply ShouldFireEvent_all_null; reflexivity.
Defined.

(** C7: for a candidate with all sensors active and at least one angle
    present, [ShouldFireEvent] is true exactly when some axis differs
    significantly: its presence flag differs, or both are present and the
    absolute difference is at least 0.1.  The bound is inclusive: a
    difference equal to 0.1 fires, a difference equal to 0.0999 does
    not. *)
Theorem ShouldFireEvent_threshold (last data : OrientationData) :
  data.(all_available_sensors_are_active) = true ->
  all_absent data = false ->
  (ShouldFireEvent last data = true
   <-> some_axis_differs_significantly last data)
  /\ (forall a b : double,
        angle_delta b a = lit_0_1 ->
        ShouldFireEvent (alpha_only a true) (alpha_only b true) = true)
  /\ (forall a b : double,
        angle_delta b a = lit_0_0999 ->
        ShouldFireEvent (alpha_only a true) (alpha_only b true) = false).
Proof.
  intros Hact Hpresent. split; [| split].
  - unfold ShouldFireEvent. rewrite Hact. cbn [negb].
    unfold all_absent in Hpresent. rewrite Hpresent.
    apply IsSignificantlyDifferent_spec.
  - intros a b Hd.
    unfold ShouldFireEvent, IsSignificantlyDifferent,
      IsAngleDifferentThreshold, alpha_only; cbn.
    unfold angle_delta in Hd. rewrite (fabs_fsub_sym a b), Hd. reflexivity.
  - intros a b Hd.
    unfold ShouldFireEvent, IsSignificantlyDifferent,
      IsAngleDifferentThreshold, alpha_only; cbn.
    unfold angle_delta in Hd. rewrite (fabs_fsub_sym a b), Hd. reflexivity.
Qed.

Lemma ShouldFireEvent_threshold_witness :
  (ShouldFireEvent (alpha_only zero true) (alpha_only lit_0_1 true) = true
   <-> some_axis_differs_significantly (alpha_only zero true)
                                       (alpha_only lit_0_1 true))
  /\ ShouldFireEvent (alpha_only zero true) (alpha_only lit_0_1 true) = true
  /\ ShouldFireEvent (alpha_only zero true) (alpha_only lit_0_0999 true)
     = false.
Proof.
  destruct (@ShouldFireEvent_threshold (alpha_only zero true)
              (alpha_only lit_0_1 true) eq_refl eq_refl) as (H1 & H2 & H3).
  split; [exact H1 | split].
  - apply H2. reflexivity.
  - apply H3. reflexivity.
Defined.

(** Two decimal neighbours, as binary64 computes them: 1.1 - 1.0 is above
    the threshold and fires, 0.3 - 0.2 is below it and does not. *)
Example delta_1_1_minus_1_0_fires :
  ShouldFireEvent (alpha_only (of_Z 1) true)
                  (alpha_only (fdiv (of_Z 11) (of_Z 10)) true) = true.
Proof. vm_compute. reflexivity. Qed.

Example delta_0_3_minus_0_2_is_silent :
  ShouldFireEvent (alpha_only (fdiv (of_Z 2) (of_Z 10)) true)
                  (alpha_only (fdiv (of_Z 3) (of_Z 10)) true) = false.
Proof. vm_compute. reflexivity. Qed.

End Filter.

(** ** The sample builder and the tick *)

Section Tick.

Lemma selected_reading_none (p : DeviceOrientationEventPump) :
  nothing_readable p <-> selected_reading p = None.
Proof.
  unfold nothing_readable, selected_reading.
  destruct (absolute_ p),
    (SensorReadingCouldBeRead (relative_orientation_sensor_ p)),
    (SensorReadingCouldBeRead (absolute_orientation_sensor_ p));
    cbn [negb andb]; split; intros H;
    try reflexivity; try discriminate; try tauto;
    try (destruct H as [[H | H] H']; discriminate).
Qed.

Lemma GetDataFromSharedMemory_stale (p : DeviceOrientationEventPump)
    (r : SensorReading) (data : OrientationData) :
  selected_reading p = Some r ->
  fne r.(timestamp) zero = false ->
  GetDataFromSharedMemory p data = set_all_active false data.
Proof.
  unfold selected_reading, GetDataFromSharedMemory.
  destruct (negb (absolute_ p)
            && SensorReadingCouldBeRead (relative_orientation_sensor_ p)).
  - intros [= <-] Hts. rewrite Hts. reflexivity.
  - destruct (SensorReadingCouldBeRead (absolute_orientation_sensor_ p));
      [| discriminate].
    intros [= <-] Hts. rewrite Hts. reflexivity.
Qed.

(** C5, as stated, fails: a pump in relative mode with two idle channels
    builds a sample whose all-sensors-active flag is true, while its
    absolute-mode flag is false. *)
Lemma idle_relative_pump_sample_is_active :
  nothing_readable (DeviceOrientationEventPump_new false)
  /\ (GetDataFromSharedMemory (DeviceOrientationEventPump_new false)
        OrientationData_default).(all_available_sensors_are_active)
     <> (DeviceOrientationEventPump_new false).(absolute_).
Proof.
  split; [split; [left |]; reflexivity | discriminate].
Qed.

(** C5, amended: on a tick where neither channel can be read, the sample
    built by [GetDataFromSharedMemory] has all-sensors-active true, its
    [absolute] field equal to the pump's absolute-mode flag, and all three
    angles absent. *)
Theorem GetDataFromSharedMemory_nothing_readable
    (p : DeviceOrientationEventPump) :
  nothing_readable p ->
  (forall data : OrientationData,
     GetDataFromSharedMemory p data
     = set_is_absolute p.(absolute_) (set_all_active true data))
  /\ (tick_sample p).(all_available_sensors_are_active) = true
  /\ (tick_sample p).(absolute) = p.(absolute_)
  /\ all_absent (tick_sample p) = true.
Proof.
  intros [Hrel Habs].
  assert (Hall : forall data : OrientationData,
             GetDataFromSharedMemory p data
             = set_is_absolute p.(absolute_) (set_all_active true data)).
  { intros data. unfold GetDataFromSharedMemory. rewrite Habs.
    destruct Hrel as [-> | ->];
      [rewrite andb_false_r | cbn [negb andb]]; reflexivity. }
  split; [exact Hall |].
  unfold tick_sample. rewrite Hall. repeat split.
Qed.

Lemma GetDataFromSharedMemory_nothing_readable_witness :
  (tick_sample (DeviceOrientationEventPump_new true))
    .(all_available_sensors_are_active) = true
  /\ (tick_sample (DeviceOrientationEventPump_new true)).(absolute) = true
  /\ all_absent (tick_sample (DeviceOrientationEventPump_new true)) = true.
Proof.
  apply (@GetDataFromSharedMemory_nothing_readable
           (DeviceOrientationEventPump_new true)).
  split; [right |]; reflexivity.
Defined.

(** C9: when the source selected on a tick has a zero timestamp, the sample
    built has all-sensors-active false and no angle; [ShouldFireEvent]
    refuses every candidate whose all-sensors-active flag is false; so the
    tick delivers nothing and leaves the pump as it was. *)
Theorem FireEvent_zero_timestamp
    (p : DeviceOrientationEventPump) (r : SensorReading) :
  selected_reading p = Some r ->
  fne r.(timestamp) zero = false ->
  (tick_sample p).(all_available_sensors_are_active) = false
  /\ all_absent (tick_sample p) = true
  /\ (forall last data : OrientationData,
        data.(all_available_sensors_are_active) = false ->
        ShouldFireEvent last data = false)
  /\ FireEvent p = p.
Proof.
  intros Hsel Hts.
  assert (Hs : tick_sample p = set_all_active false OrientationData_default)
    by (apply GetDataFromSharedMemory_stale with (r := r); assumption).
  split; [now rewrite Hs | split; [now rewrite Hs | split]].
  - exact ShouldFireEvent_inactive.
  - unfold FireEvent. fold (tick_sample p).
    rewrite ShouldFireEvent_inactive; [reflexivity | now rewrite Hs].
Qed.

(** C10: a tick calls the listener at most once, and when
    [ShouldFireEvent] refuses the tick's sample, neither [data_] nor the
    listener is touched. *)
Theorem FireEvent_at_most_one_delivery (p : DeviceOrientationEventPump) :
  (delivered (FireEvent p) = delivered p
   \/ delivered (FireEvent p) = delivered p ++ [tick_sample p])
  /\ length (delivered (FireEvent p)) <= S (length (delivered p))
  /\ (ShouldFireEvent p.(data_) (tick_sample p) = false ->
      data_ (FireEvent p) = data_ p
      /\ delivered (FireEvent p) = delivered p).
Proof.
  unfold FireEvent. fold (tick_sample p).
  destruct (ShouldFireEvent (data_ p) (tick_sample p)); cbn.
  - split; [now right | split; [| discriminate]].
    rewrite length_app. cbn. lia.
  - split; [now left | split; [lia | now split]].
Qed.

End Tick.

Section TickWitnesses.

Lemma FireEvent_zero_timestamp_witness :
  (tick_sample (pump_reading_relative reading_unpopulated))
    .(all_available_sensors_are_active) = false
  /\ FireEvent (pump_reading_relative reading_unpopulated)
     = pump_reading_relative reading_unpopulated.
Proof.
  destruct (@FireEvent_zero_timestamp
              (pump_reading_relative reading_unpopulated)
              reading_unpopulated eq_refl eq_refl) as (H1 & _ & _ & H4).
  split; [exact H1 | exact H4].
Defined.

Lemma FireEvent_at_most_one_delivery_witness :
  data_ (FireEvent (pump_reading_relative reading_unpopulated))
  = data_ (pump_reading_relative reading_unpopulated)
  /\ delivered (FireEvent (pump_reading_relative reading_unpopulated))
     = delivered (pump_reading_relative reading_unpopulated).
Proof.
  destruct (FireEvent_at_most_one_delivery
              (pump_reading_relative reading_unpopulated)) as (_ & _ & H).
  apply H. reflexivity.
Defined.

(** A populated buffer is delivered on the first tick. *)
Example populated_reading_is_delivered :
  delivered (FireEvent (pump_reading_relative reading_populated))
  = [ {| alpha := of_Z 30; beta := of_Z 10; gamma := of_Z 20;
         has_alpha := true; has_beta := true; has_gamma := true;
         absolute := false; all_available_sensors_are_active := true |} ].
Proof. reflexivity. Qed.

End TickWitnesses.

(** ** What each event leaves alone *)

Section Frames.

Lemma SendStartMessage_data (frame : LocalFrame)
    (p : DeviceOrientationEventPump) :
  data_ (SendStartMessage frame p) = data_ p.
Proof.
  unfold SendStartMessage. cbn. destruct (absolute_ p); reflexivity.
Qed.

Lemma SendStopMessage_data (p : DeviceOrientationEventPump) :
  data_ (SendStopMessage p) = OrientationData_default.
Proof. reflexivity. Qed.

Lemma SendStopMessage_channels (p : DeviceOrientationEventPump) :
  relative_orientation_sensor_ (SendStopMessage p)
  = Stop (relative_orientation_sensor_ p)
  /\ absolute_orientation_sensor_ (SendStopMessage p)
     = Stop (absolute_orientation_sensor_ p)
  /\ absolute_ (SendStopMessage p) = absolute_ p.
Proof.
  unfold SendStopMessage. cbn.
  destruct (SensorState_eqb _ SHOULD_SUSPEND && _); now repeat split.
Qed.

Lemma DidStartIfPossible_idle (p : DeviceOrientationEventPump) :
  fallback_condition p = false -> DidStartIfPossible p = p.
Proof.
  intros H. unfold DidStartIfPossible. rewrite H.
  destruct (sensor_provider_ p); reflexivity.
Qed.

Lemma DidStartIfPossible_fallback (p : DeviceOrientationEventPump) :
  fallback_condition p = true ->
  exists provider,
    sensor_provider_ p = Some provider
    /\ DidStartIfPossible p = fall_back_to_absolute provider p.
Proof.
  intros H. unfold DidStartIfPossible. rewrite H.
  unfold fallback_condition in H.
  destruct (sensor_provider_ p) as [provider |].
  - now exists provider.
  - now rewrite andb_false_r in H.
Qed.

Lemma fall_back_to_absolute_data (provider : SensorProvider)
    (p : DeviceOrientationEventPump) :
  data_ (fall_back_to_absolute provider p) = data_ p.
Proof.
  unfold fall_back_to_absolute. cbn.
  destruct (should_suspend_absolute_orientation_sensor_ p); reflexivity.
Qed.

Lemma DidStartIfPossible_data (p : DeviceOrientationEventPump) :
  data_ (DidStartIfPossible p) = data_ p.
Proof.
  unfold DidStartIfPossible.
  destruct (sensor_provider_ p); [| reflexivity].
  destruct (fallback_condition p); [| reflexivity].
  apply fall_back_to_absolute_data.
Qed.

Lemma service_data (e : ServiceEvent) (p : DeviceOrientationEventPump) :
  data_ (service e p) = data_ p.
Proof. destruct e as [t | t | t fresh r]; destruct t; reflexivity. Qed.

Lemma service_flags (e : ServiceEvent) (p : DeviceOrientationEventPump) :
  fall_back_to_absolute_orientation_sensor_ (service e p)
  = fall_back_to_absolute_orientation_sensor_ p
  /\ should_suspend_absolute_orientation_sensor_ (service e p)
     = should_suspend_absolute_orientation_sensor_ p.
Proof. destruct e as [t | t | t fresh r]; destruct t; now split. Qed.

Lemma FireEvent_flags (p : DeviceOrientationEventPump) :
  fall_back_to_absolute_orientation_sensor_ (FireEvent p)
  = fall_back_to_absolute_orientation_sensor_ p
  /\ should_suspend_absolute_orientation_sensor_ (FireEvent p)
     = should_suspend_absolute_orientation_sensor_ p.
Proof.
  unfold FireEvent.
  destruct (ShouldFireEvent _ _); now split.
Qed.

Lemma FireEvent_channels (p : DeviceOrientationEventPump) :
  relative_orientation_sensor_ (FireEvent p) = relative_orientation_sensor_ p
  /\ absolute_orientation_sensor_ (FireEvent p)
     = absolute_orientation_sensor_ p.
Proof.
  unfold FireEvent.
  destruct (ShouldFireEvent _ _); now split.
Qed.

End Frames.

(** ** Stopping resets the cached sample *)

Section Restart.

Lemma step_keeps_default (ev : Event) (p : DeviceOrientationEventPump) :
  data_ p = OrientationData_default ->
  (ev = FromScheduler CallFireEvent ->
   (tick_sample p).(all_available_sensors_are_active) = false) ->
  data_ (step ev p) = OrientationData_default.
Proof.
  intros Hd Hquiet.
  destruct ev as [[frame | | |] | e]; cbn [step call].
  - now rewrite SendStartMessage_data.
  - apply SendStopMessage_data.
  - now rewrite DidStartIfPossible_data.
  - unfold FireEvent. fold (tick_sample p).
    rewrite ShouldFireEvent_inactive; [exact Hd | now apply Hquiet].
  - now rewrite service_data.
Qed.

Lemma run_keeps_default (evs : list Event) :
  forall p : DeviceOrientationEventPump,
    data_ p = OrientationData_default ->
    no_live_tick p evs ->
    data_ (run evs p) = OrientationData_default.
Proof.
  induction evs as [| ev rest IH]; intros p Hd Hq; [exact Hd |].
  destruct Hq as [Hev Hrest]. cbn [run fold_left].
  apply IH; [now apply step_keeps_default | exact Hrest].
Qed.

Lemma FireEvent_from_default (p : DeviceOrientationEventPump) :
  data_ p = OrientationData_default ->
  (tick_sample p).(all_available_sensors_are_active) = true ->
  FireEvent p = notify_listener (tick_sample p) (set_data (tick_sample p) p).
Proof.
  intros Hd Hlive. unfold FireEvent. fold (tick_sample p).
  now rewrite Hd, ShouldFireEvent_from_default.
Qed.

(** C8: [SendStopMessage] resets [data_] to the default sample, whatever
    it held; hence after a stop and a start, the first tick that builds a
    live sample delivers it, whatever was delivered before the stop. *)
Theorem first_live_tick_after_restart_fires
    (p : DeviceOrientationEventPump) (frame : LocalFrame)
    (evs : list Event) :
  data_ (SendStopMessage p) = OrientationData_default
  /\ (let q := run evs (SendStartMessage frame (SendStopMessage p)) in
      no_live_tick (SendStartMessage frame (SendStopMessage p)) evs ->
      (tick_sample q).(all_available_sensors_are_active) = true ->
      ShouldFireEvent q.(data_) (tick_sample q) = true
      /\ data_ (FireEvent q) = tick_sample q
      /\ delivered (FireEvent q) = delivered q ++ [tick_sample q]).
Proof.
  split; [apply SendStopMessage_data |].
  intros q Hquiet Hlive.
  assert (Hd : data_ q = OrientationData_default).
  { apply run_keeps_default; [| exact Hquiet].
    now rewrite SendStartMessage_data. }
  rewrite (FireEvent_from_default q Hd Hlive), Hd.
  split; [now apply ShouldFireEvent_from_default | now split].
Qed.

(** The same reading before and after a restart: delivered, then, once the
    pump was stopped, started and reconnected, delivered again. *)
Lemma first_live_tick_after_restart_fires_witness :
  tick_sample (FireEvent (pump_reading_relative reading_populated))
  = data_ (FireEvent (pump_reading_relative reading_populated))
  /\ delivered
       (FireEvent
          (run [FromService (Connected RELATIVE_ORIENTATION_EULER_ANGLES)]
               (SendStartMessage frame_granting
                  (SendStopMessage
                     (FireEvent (pump_reading_relative reading_populated))))))
     = [ data_ (FireEvent (pump_reading_relative reading_populated));
         data_ (FireEvent (pump_reading_relative reading_populated)) ].
Proof.
  split; [reflexivity |].
  destruct (@first_live_tick_after_restart_fires
              (FireEvent (pump_reading_relative reading_populated))
              frame_granting
              [FromService (Connected RELATIVE_ORIENTATION_EULER_ANGLES)])
    as (_ & H).
  destruct H as (_ & _ & H).
  - split; [discriminate | exact I].
  - reflexivity.
  - rewrite H. reflexivity.
Defined.

End Restart.

(** ** At most one live subscription *)

Section SingleLive.

Lemma sensor_Start (provider : SensorProvider) (e : SensorEntry) :
  sensor (Start provider e) = true -> sensor e = true.
Proof.
  unfold Start, sensor.
  destruct e as [t st r fresh]; cbn.
  destruct st; cbn; try discriminate; try tauto;
    destruct (accepts provider t); cbn; discriminate.
Qed.

Lemma sensor_Stop (e : SensorEntry) : sensor (Stop e) = false.
Proof.
  unfold Stop, sensor. destruct e as [t st r fresh]; cbn.
  destruct st; reflexivity.
Qed.

Lemma fall_back_to_absolute_channels (provider : SensorProvider)
    (p : DeviceOrientationEventPump) :
  relative_orientation_sensor_ (fall_back_to_absolute provider p)
  = relative_orientation_sensor_ p
  /\ (sensor (absolute_orientation_sensor_ (fall_back_to_absolute provider p))
      = true ->
      sensor (absolute_orientation_sensor_ p) = true).
Proof.
  unfold fall_back_to_absolute. cbn.
  destruct (should_suspend_absolute_orientation_sensor_ p); cbn.
  - split; [reflexivity | discriminate].
  - split; [reflexivity | apply sensor_Start].
Qed.

(** No call creates a live subscription: a channel that is live after the
    call was live before it. *)
Lemma call_no_new_subscription (c : Call) (p : DeviceOrientationEventPump) :
  (sensor (relative_orientation_sensor_ (call c p)) = true ->
   sensor (relative_orientation_sensor_ p) = true)
  /\ (sensor (absolute_orientation_sensor_ (call c p)) = true ->
      sensor (absolute_orientation_sensor_ p) = true).
Proof.
  destruct c as [frame | | |]; cbn [call].
  - unfold SendStartMessage. cbn.
    destruct (absolute_ p); cbn; split; try tauto; apply sensor_Start.
  - destruct (SendStopMessage_channels p) as (-> & -> & _).
    rewrite !sensor_Stop. split; discriminate.
  - unfold DidStartIfPossible.
    destruct (sensor_provider_ p) as [provider |]; [| now split].
    destruct (fallback_condition p); [| now split].
    destruct (fall_back_to_absolute_channels provider p) as [-> H].
    now split.
  - destruct (FireEvent_channels p) as [-> ->]. now split.
Qed.

Lemma call_keeps_single_live (c : Call) (p : DeviceOrientationEventPump) :
  at_most_one_live p -> at_most_one_live (call c p).
Proof.
  unfold at_most_one_live. intros H.
  destruct (call_no_new_subscription c p) as [Hr Ha].
  destruct (sensor (relative_orientation_sensor_ (call c p))) eqn:Er;
    [| reflexivity].
  destruct (sensor (absolute_orientation_sensor_ (call c p))) eqn:Ea;
    [| reflexivity].
  rewrite (Hr eq_refl), (Ha eq_refl) in H. discriminate.
Qed.

Lemma SensorsReadyOrErrored_checked (p : DeviceOrientationEventPump) :
  at_most_one_live p -> SensorsReadyOrErrored p <> None.
Proof.
  unfold at_most_one_live, SensorsReadyOrErrored. intros H.
  destruct (negb (ReadyOrErrored _) || negb (ReadyOrErrored _));
    [discriminate |].
  destruct (sensor (relative_orientation_sensor_ p)),
    (sensor (absolute_orientation_sensor_ p)); cbn; discriminate.
Qed.

Lemma new_pump_single_live (absolute : bool) :
  at_most_one_live (DeviceOrientationEventPump_new absolute).
Proof. reflexivity. Qed.

(** The calls by themselves never add a live subscription, so they keep
    the pump among those with at most one live channel. *)
Lemma calls_keep_single_live
    (calls : list Call) (p : DeviceOrientationEventPump) :
  at_most_one_live p ->
  at_most_one_live (run_calls calls p)
  /\ SensorsReadyOrErrored (run_calls calls p) <> None.
Proof.
  revert p. induction calls as [| c rest IH]; intros p H.
  - split; [exact H | now apply SensorsReadyOrErrored_checked].
  - cbn [run_calls fold_left]. apply IH. now apply call_keeps_single_live.
Qed.

(** In absolute mode the relative channel is never started, so it is never
    live, whatever the scheduler and the sensor service do. *)
Lemma absolute_mode_step (ev : Event) (p : DeviceOrientationEventPump) :
  absolute_ p = true ->
  sensor_state (relative_orientation_sensor_ p) = IDLE
  \/ sensor_state (relative_orientation_sensor_ p) = ERRORED ->
  absolute_ (step ev p) = true
  /\ (sensor_state (relative_orientation_sensor_ (step ev p)) = IDLE
      \/ sensor_state (relative_orientation_sensor_ (step ev p)) = ERRORED).
Proof.
  intros Habs Hst.
  destruct ev as [[frame | | |] | [t | t | t fresh r]]; cbn [step call service].
  - unfold SendStartMessage. cbn. rewrite Habs. cbn. now split.
  - destruct (SendStopMessage_channels p) as (-> & _ & ->).
    split; [exact Habs |].
    unfold Stop. destruct Hst as [H | H]; rewrite H; tauto.
  - rewrite DidStartIfPossible_idle; [now split |].
    unfold fallback_condition. now rewrite Habs.
  - destruct (FireEvent_channels p) as [-> _].
    unfold FireEvent. destruct (ShouldFireEvent _ _); now split.
  - destruct t; cbn; [| now split]. split; [exact Habs |].
    unfold OnConnected. destruct Hst as [H | H]; rewrite H; tauto.
  - destruct t; cbn; [| now split]. split; [exact Habs | now right].
  - destruct t; cbn; now split.
Qed.

(** X19: a pump built in absolute mode never has both channels live,
    whatever the scheduler calls and whatever the sensor service answers:
    the relative channel is never started. *)
Lemma absolute_mode_single_live (evs : list Event) :
  at_most_one_live (run evs (DeviceOrientationEventPump_new true)).
Proof.
  assert (H : forall p,
             absolute_ p = true ->
             sensor_state (relative_orientation_sensor_ p) = IDLE
             \/ sensor_state (relative_orientation_sensor_ p) = ERRORED ->
             at_most_one_live (run evs p)).
  { induction evs as [| ev rest IH]; intros p Ha Hst.
    - unfold at_most_one_live, sensor. cbn.
      destruct Hst as [-> | ->]; reflexivity.
    - cbn [run fold_left].
      destruct (absolute_mode_step ev p Ha Hst) as (Ha' & Hst').
      now apply IH. }
  apply H; [reflexivity | now left].
Qed.










End SingleLive.

(** ** The one-shot fallback *)

Section Fallback.

Lemma fallback_condition_pending (p : DeviceOrientationEventPump) :
  fallback_condition p = true ->
  fall_back_to_absolute_orientation_sensor_ p = true.
Proof.
  unfold fallback_condition. rewrite !andb_true_iff. tauto.
Qed.

Lemma fall_back_to_absolute_flags (provider : SensorProvider)
    (p : DeviceOrientationEventPump) :
  fall_back_to_absolute_orientation_sensor_
    (fall_back_to_absolute provider p) = false
  /\ should_suspend_absolute_orientation_sensor_
       (fall_back_to_absolute provider p) = false
  /\ absolute_orientation_sensor_ (fall_back_to_absolute provider p)
     = (if should_suspend_absolute_orientation_sensor_ p
        then with_state SHOULD_SUSPEND
               (Start provider (absolute_orientation_sensor_ p))
        else Start provider (absolute_orientation_sensor_ p)).
Proof.
  unfold fall_back_to_absolute. cbn.
  destruct (should_suspend_absolute_orientation_sensor_ p) eqn:E; cbn;
    now repeat split.
Qed.

Lemma SendStopMessage_flags (p : DeviceOrientationEventPump) :
  fall_back_to_absolute_orientation_sensor_ (SendStopMessage p)
  = fall_back_to_absolute_orientation_sensor_ p
  /\ should_suspend_absolute_orientation_sensor_ (SendStopMessage p)
     = (SensorState_eqb
          (sensor_state (Stop (relative_orientation_sensor_ p)))
          SHOULD_SUSPEND
        && fall_back_to_absolute_orientation_sensor_ p
        || should_suspend_absolute_orientation_sensor_ p).
Proof.
  unfold SendStopMessage. cbn.
  destruct (SensorState_eqb _ SHOULD_SUSPEND && _); now split.
Qed.

(** Inside a cycle nothing re-arms the fallback. *)
Lemma step_keeps_fallback_spent (ev : Event)
    (p : DeviceOrientationEventPump) :
  is_start ev = false ->
  fall_back_to_absolute_orientation_sensor_ p = false ->
  fall_back_to_absolute_orientation_sensor_ (step ev p) = false.
Proof.
  intros Hev Hp.
  destruct ev as [[frame | | |] | e]; cbn [step call]; try discriminate.
  - now rewrite (proj1 (SendStopMessage_flags p)).
  - rewrite DidStartIfPossible_idle; [exact Hp |].
    destruct (fallback_condition p) eqn:E; [| reflexivity].
    apply fallback_condition_pending in E. congruence.
  - now rewrite (proj1 (FireEvent_flags p)).
  - now rewrite (proj1 (service_flags e p)).
Qed.

Lemma fallback_spent_never_starts (evs : list Event) :
  forall p : DeviceOrientationEventPump,
    within_cycle evs ->
    fall_back_to_absolute_orientation_sensor_ p = false ->
    fallback_starts p evs = 0.
Proof.
  unfold within_cycle.
  induction evs as [| ev rest IH]; intros p Hc Hp; [reflexivity |].
  cbn [forallb] in Hc. apply andb_true_iff in Hc as [Hev Hrest].
  apply negb_true_iff in Hev.
  cbn [fallback_starts].
  rewrite (IH _ Hrest (step_keeps_fallback_spent ev p Hev Hp)).
  destruct (fallback_condition p) eqn:E.
  - apply fallback_condition_pending in E. congruence.
  - now rewrite andb_false_r.
Qed.

Lemma fallback_starts_at_most_once (evs : list Event) :
  forall p : DeviceOrientationEventPump,
    within_cycle evs -> fallback_starts p evs <= 1.
Proof.
  induction evs as [| ev rest IH]; intros p Hc; [cbn; lia |].
  assert (Hc' := Hc). unfold within_cycle in Hc'.
  cbn [forallb] in Hc'. apply andb_true_iff in Hc' as [Hev Hrest].
  cbn [fallback_starts].
  destruct (is_DidStartIfPossible ev && fallback_condition p) eqn:E.
  - apply andb_true_iff in E as [Hd Hf].
    destruct ev as [[frame | | |] | e]; try discriminate.
    cbn [step call].
    destruct (DidStartIfPossible_fallback p Hf) as (provider & _ & ->).
    rewrite fallback_spent_never_starts; [lia | exact Hrest |].
    apply fall_back_to_absolute_flags.
  - cbn. now apply IH.
Qed.

(** C2: inside a start cycle [DidStartIfPossible] takes its fallback
    branch at most once.  The invocation that finds the pump not in
    absolute mode, the relative channel without a live subscription, the
    fallback flag set and a provider bound clears the flag and starts the
    absolute channel; after it nothing in the cycle, relative failures
    included, makes [DidStartIfPossible] start it again. *)
Theorem fallback_at_most_once_per_cycle
    (p : DeviceOrientationEventPump) (evs : list Event) :
  within_cycle evs ->
  fallback_starts p evs <= 1
  /\ (fallback_condition p = true ->
      fall_back_to_absolute_orientation_sensor_ (DidStartIfPossible p)
      = false
      /\ (exists provider,
            sensor_provider_ p = Some provider
            /\ absolute_orientation_sensor_ (DidStartIfPossible p)
               = (if should_suspend_absolute_orientation_sensor_ p
                  then with_state SHOULD_SUSPEND
                         (Start provider (absolute_orientation_sensor_ p))
                  else Start provider (absolute_orientation_sensor_ p)))
      /\ fallback_starts (DidStartIfPossible p) evs = 0).
Proof.
  intros Hc. split; [now apply fallback_starts_at_most_once |].
  intros Hf.
  destruct (DidStartIfPossible_fallback p Hf) as (provider & Hp & ->).
  destruct (fall_back_to_absolute_flags provider p) as (H1 & _ & H3).
  split; [exact H1 | split].
  - exists provider. now split.
  - now apply fallback_spent_never_starts.
Qed.

(** The relative channel fails, the fallback starts the absolute channel;
    the relative channel fails again, and [DidStartIfPossible] does
    nothing more. *)
Lemma fallback_at_most_once_per_cycle_witness :
  fallback_starts pump_relative_initializing
    [FromService (Failed RELATIVE_ORIENTATION_EULER_ANGLES);
     FromScheduler CallDidStartIfPossible;
     FromService (Failed RELATIVE_ORIENTATION_EULER_ANGLES);
     FromScheduler CallDidStartIfPossible] <= 1
  /\ fallback_starts
       (DidStartIfPossible
          (service (Failed RELATIVE_ORIENTATION_EULER_ANGLES)
                   pump_relative_initializing))
       [FromService (Failed RELATIVE_ORIENTATION_EULER_ANGLES);
        FromScheduler CallDidStartIfPossible] = 0.
Proof.
  split.
  - apply (@fallback_at_most_once_per_cycle pump_relative_initializing).
    reflexivity.
  - apply (@fallback_at_most_once_per_cycle
             (service (Failed RELATIVE_ORIENTATION_EULER_ANGLES)
                      pump_relative_initializing));
      reflexivity.
Defined.

Example fallback_runs_once :
  fallback_starts pump_relative_initializing
    [FromService (Failed RELATIVE_ORIENTATION_EULER_ANGLES);
     FromScheduler CallDidStartIfPossible;
     FromService (Failed RELATIVE_ORIENTATION_EULER_ANGLES);
     FromScheduler CallDidStartIfPossible] = 1.
Proof. reflexivity. Qed.

(** *** A stop that arrives before the relative channel resolves *)

Lemma step_keeps_pending_suspension (ev : Event)
    (p : DeviceOrientationEventPump) :
  is_start ev = false ->
  (fall_back_to_absolute_orientation_sensor_ p = true ->
   should_suspend_absolute_orientation_sensor_ p = true) ->
  fall_back_to_absolute_orientation_sensor_ (step ev p) = true ->
  should_suspend_absolute_orientation_sensor_ (step ev p) = true.
Proof.
  intros Hev Hp.
  destruct ev as [[frame | | |] | e]; cbn [step call]; try discriminate.
  - destruct (SendStopMessage_flags p) as [-> ->]. intros H.
    rewrite (Hp H). apply orb_true_r.
  - destruct (fallback_condition p) eqn:E.
    + destruct (DidStartIfPossible_fallback p E) as (provider & _ & ->).
      rewrite (proj1 (fall_back_to_absolute_flags provider p)).
      discriminate.
    + now rewrite DidStartIfPossible_idle.
  - now destruct (FireEvent_flags p) as [-> ->].
  - now destruct (service_flags e p) as [-> ->].
Qed.

Lemma run_keeps_pending_suspension (evs : list Event) :
  forall p : DeviceOrientationEventPump,
    within_cycle evs ->
    (fall_back_to_absolute_orientation_sensor_ p = true ->
     should_suspend_absolute_orientation_sensor_ p = true) ->
    fall_back_to_absolute_orientation_sensor_ (run evs p) = true ->
    should_suspend_absolute_orientation_sensor_ (run evs p) = true.
Proof.
  unfold within_cycle.
  induction evs as [| ev rest IH]; intros p Hc Hp; [exact Hp |].
  cbn [forallb] in Hc. apply andb_true_iff in Hc as [Hev Hrest].
  apply negb_true_iff in Hev.
  cbn [run fold_left]. apply IH; [exact Hrest |].
  now apply step_keeps_pending_suspension.
Qed.

Lemma Stop_mid_initialization (e : SensorEntry) :
  sensor_state e = INITIALIZING \/ sensor_state e = SHOULD_SUSPEND ->
  sensor_state (Stop e) = SHOULD_SUSPEND.
Proof.
  unfold Stop. intros [H | H]; rewrite H; [reflexivity | exact H].
Qed.

(** C3: when [SendStopMessage] runs with the relative channel in the
    middle of its initialization and the fallback still pending, it sets
    [should_suspend_absolute_orientation_sensor_]; when
    [DidStartIfPossible] later in the cycle takes the fallback and starts
    the absolute channel, that channel is left in [SHOULD_SUSPEND] and the
    flag is cleared. *)
Theorem stop_mid_initialization_suspends_fallback
    (p : DeviceOrientationEventPump) (evs : list Event) :
  relative_mid_initialization p ->
  fall_back_to_absolute_orientation_sensor_ p = true ->
  within_cycle evs ->
  should_suspend_absolute_orientation_sensor_ (SendStopMessage p) = true
  /\ (fallback_condition (run evs (SendStopMessage p)) = true ->
      sensor_state
        (absolute_orientation_sensor_
           (DidStartIfPossible (run evs (SendStopMessage p))))
      = SHOULD_SUSPEND
      /\ should_suspend_absolute_orientation_sensor_
           (DidStartIfPossible (run evs (SendStopMessage p))) = false).
Proof.
  intros Hmid Hpending Hc.
  assert (Hset : should_suspend_absolute_orientation_sensor_
                   (SendStopMessage p) = true).
  { rewrite (proj2 (SendStopMessage_flags p)).
    rewrite (Stop_mid_initialization _ Hmid), Hpending. reflexivity. }
  split; [exact Hset |].
  intros Hf.
  assert (Hq : should_suspend_absolute_orientation_sensor_
                 (run evs (SendStopMessage p)) = true).
  { apply run_keeps_pending_suspension; [exact Hc | now intros _ |].
    now apply fallback_condition_pending. }
  destruct (DidStartIfPossible_fallback _ Hf) as (provider & _ & ->).
  destruct (fall_back_to_absolute_flags provider (run evs (SendStopMessage p)))
    as (_ & H2 & H3).
  rewrite H3, Hq. now split.
Qed.

Lemma stop_mid_initialization_suspends_fallback_witness :
  should_suspend_absolute_orientation_sensor_
    (SendStopMessage pump_relative_initializing) = true
  /\ sensor_state
       (absolute_orientation_sensor_
          (DidStartIfPossible
             (run [FromService (Failed RELATIVE_ORIENTATION_EULER_ANGLES)]
                  (SendStopMessage pump_relative_initializing))))
     = SHOULD_SUSPEND
  /\ should_suspend_absolute_orientation_sensor_
       (DidStartIfPossible
          (run [FromService (Failed RELATIVE_ORIENTATION_EULER_ANGLES)]
               (SendStopMessage pump_relative_initializing))) = false.
Proof.
  destruct (@stop_mid_initialization_suspends_fallback
              pump_relative_initializing
              [FromService (Failed RELATIVE_ORIENTATION_EULER_ANGLES)])
    as [H1 H2].
  - left. reflexivity.
  - reflexivity.
  - reflexivity.
  - split; [exact H1 | apply H2; reflexivity].
Defined.

End Fallback.

(** * Further properties of the code *)

(** ** The filter, beyond the threshold *)

Section FilterAlgebra.

Lemma IsAngleDifferentThreshold_sym
    (has1 : bool) (a1 : double) (has2 : bool) (a2 : double) :
  IsAngleDifferentThreshold has1 a1 has2 a2
  = IsAngleDifferentThreshold has2 a2 has1 a1.
Proof.
  unfold IsAngleDifferentThreshold.
  rewrite (fabs_fsub_sym a1 a2). destruct has1, has2; reflexivity.
Qed.

(** X1: [IsSignificantlyDifferent] does not depend on which sample is the
    stored one and which the candidate. *)
Theorem IsSignificantlyDifferent_sym (data1 data2 : OrientationData) :
  IsSignificantlyDifferent data1 data2 = IsSignificantlyDifferent data2 data1.
Proof.
  unfold IsSignificantlyDifferent.
  rewrite (IsAngleDifferentThreshold_sym (has_alpha data1)),
    (IsAngleDifferentThreshold_sym (has_beta data1)),
    (IsAngleDifferentThreshold_sym (has_gamma data1)).
  reflexivity.
Qed.

Lemma fge_nan_delta_left (a b : double) :
  isnan a = true -> fge (fabs (fsub a b)) kOrientationThreshold = false.
Proof.
  destruct a; try discriminate. intros _.
  destruct b; reflexivity.
Qed.

(** X2: an angle flagged present whose value is a NaN never counts as a
    change, whatever the other value: the comparison with the threshold is
    false on a NaN. *)
Theorem IsAngleDifferentThreshold_nan (angle1 angle2 : double) :
  isnan angle1 = true \/ isnan angle2 = true ->
  IsAngleDifferentThreshold true angle1 true angle2 = false.
Proof.
  intros [H | H]; unfold IsAngleDifferentThreshold; cbn [Bool.eqb negb andb].
  - now apply fge_nan_delta_left.
  - rewrite fabs_fsub_sym. now apply fge_nan_delta_left.
Qed.

Lemma IsAngleDifferentThreshold_nan_witness :
  IsAngleDifferentThreshold true S754_nan true (of_Z 90) = false.
Proof.
  apply IsAngleDifferentThreshold_nan. left. reflexivity.
Defined.

End FilterAlgebra.

(** ** The sample builder, source by source *)

Section Builder.

(** X3: [GetDataFromSharedMemory] keeps presence flags and values
    consistent: an angle it flags present is not a NaN. *)
Theorem GetDataFromSharedMemory_presence
    (p : DeviceOrientationEventPump) (data : OrientationData) :
  presence_consistent data ->
  presence_consistent (GetDataFromSharedMemory p data).
Proof.
  intros H. unfold GetDataFromSharedMemory.
  assert (Hfill : forall r b d, presence_consistent (fill_from r b d)).
  { intros r b d. unfold presence_consistent, fill_from. cbn.
    repeat split; intros E; now apply negb_true_iff in E. }
  destruct (negb (absolute_ p) && SensorReadingCouldBeRead _); cbn.
  - destruct (fne _ zero); cbn; [apply Hfill | exact H].
  - destruct (SensorReadingCouldBeRead _); cbn; [| exact H].
    destruct (fne _ zero); cbn; [apply Hfill | exact H].
Qed.

Lemma GetDataFromSharedMemory_presence_witness :
  presence_consistent (tick_sample (pump_reading_relative reading_populated)).
Proof.
  apply GetDataFromSharedMemory_presence.
  repeat split; discriminate.
Defined.

(** X4: in absolute mode the relative channel is not consulted: the sample
    is the same whatever that channel holds. *)
Theorem absolute_mode_ignores_relative
    (p : DeviceOrientationEventPump) (e : SensorEntry)
    (data : OrientationData) :
  absolute_ p = true ->
  GetDataFromSharedMemory (set_relative e p) data
  = GetDataFromSharedMemory p data.
Proof.
  intros H. unfold GetDataFromSharedMemory. cbn. now rewrite H.
Qed.

(** X5: outside absolute mode a readable relative channel takes
    precedence: the sample is the same whatever the absolute channel
    holds. *)
Theorem readable_relative_hides_absolute
    (p : DeviceOrientationEventPump) (e : SensorEntry)
    (data : OrientationData) :
  absolute_ p = false ->
  SensorReadingCouldBeRead (relative_orientation_sensor_ p) = true ->
  GetDataFromSharedMemory (set_absolute e p) data
  = GetDataFromSharedMemory p data.
Proof.
  intros Ha Hr. unfold GetDataFromSharedMemory. cbn. now rewrite Ha, Hr.
Qed.

(** X6: the sample is marked inactive exactly when a source was selected
    and its timestamp compares equal to zero; with no readable source the
    sample is active. *)
Theorem inactive_sample_iff_stale
    (p : DeviceOrientationEventPump) (data : OrientationData) :
  (GetDataFromSharedMemory p data).(all_available_sensors_are_active) = false
  <-> exists r, selected_reading p = Some r /\ fne r.(timestamp) zero = false.
Proof.
  unfold GetDataFromSharedMemory, selected_reading.
  destruct (negb (absolute_ p) && SensorReadingCouldBeRead _); cbn.
  - destruct (fne _ zero) eqn:E; cbn; split.
    + discriminate.
    + intros (r & [= <-] & H). congruence.
    + intros _. now eexists.
    + reflexivity.
  - destruct (SensorReadingCouldBeRead _); cbn.
    + destruct (fne _ zero) eqn:E; cbn; split.
      * discriminate.
      * intros (r & [= <-] & H). congruence.
      * intros _. now eexists.
      * reflexivity.
    + split; [discriminate | intros (r & H & _); discriminate].
Qed.

End Builder.

Section BuilderWitnesses.

Lemma absolute_mode_ignores_relative_witness :
  GetDataFromSharedMemory
    (set_relative
       (relative_orientation_sensor_
          (pump_reading_relative reading_populated))
       (DeviceOrientationEventPump_new true))
    OrientationData_default
  = GetDataFromSharedMemory (DeviceOrientationEventPump_new true)
      OrientationData_default.
Proof.
  apply absolute_mode_ignores_relative. reflexivity.
Defined.

Lemma readable_relative_hides_absolute_witness :
  GetDataFromSharedMemory
    (set_absolute
       (OnBufferWritten true reading_unpopulated
          (with_state ACTIVE
             (SensorEntry_new ABSOLUTE_ORIENTATION_EULER_ANGLES)))
       (pump_reading_relative reading_populated))
    OrientationData_default
  = GetDataFromSharedMemory (pump_reading_relative reading_populated)
      OrientationData_default.
Proof.
  apply readable_relative_hides_absolute; reflexivity.
Defined.

End BuilderWitnesses.

(** ** Ticks in sequence *)

Section Ticks.

Lemma FireEvent_unfold (p : DeviceOrientationEventPump) :
  FireEvent p
  = if ShouldFireEvent (data_ p) (tick_sample p)
    then notify_listener (tick_sample p) (set_data (tick_sample p) p)
    else p.
Proof. reflexivity. Qed.

Lemma tick_sample_FireEvent (p : DeviceOrientationEventPump) :
  tick_sample (FireEvent p) = tick_sample p.
Proof.
  unfold FireEvent. destruct (ShouldFireEvent _ _); reflexivity.
Qed.

Lemma ShouldFireEvent_refl (d : OrientationData) :
  ShouldFireEvent d d
  = d.(all_available_sensors_are_active) && all_absent d.
Proof.
  unfold ShouldFireEvent, all_absent.
  rewrite IsSignificantlyDifferent_same by (repeat split).
  destruct (all_available_sensors_are_active d); cbn [negb andb];
    [| reflexivity].
  destruct (negb (has_alpha d) && negb (has_beta d) && negb (has_gamma d));
    reflexivity.
Qed.

(** X7: when the tick's sample carries at least one angle, a second tick
    on unchanged buffers does nothing: the sample was either refused, or
    delivered and cached, and it does not differ from itself. *)
Theorem FireEvent_twice (p : DeviceOrientationEventPump) :
  all_absent (tick_sample p) = false ->
  FireEvent (FireEvent p) = FireEvent p.
Proof.
  intros Hpresent.
  rewrite (FireEvent_unfold (FireEvent p)), tick_sample_FireEvent.
  rewrite (FireEvent_unfold p).
  destruct (ShouldFireEvent (data_ p) (tick_sample p)) eqn:E.
  - cbn [data_ notify_listener set_data].
    now rewrite ShouldFireEvent_refl, Hpresent, andb_false_r.
  - now rewrite E.
Qed.

Lemma FireEvent_twice_witness :
  FireEvent (FireEvent (pump_reading_relative reading_populated))
  = FireEvent (pump_reading_relative reading_populated).
Proof.
  apply FireEvent_twice. reflexivity.
Defined.

Lemma FireEvent_all_null (p : DeviceOrientationEventPump) :
  all_absent (tick_sample p) = true ->
  (tick_sample p).(all_available_sensors_are_active) = true ->
  FireEvent p
  = notify_listener (tick_sample p) (set_data (tick_sample p) p).
Proof.
  intros Habs Hact. unfold FireEvent. fold (tick_sample p).
  unfold ShouldFireEvent. rewrite Hact. cbn [negb].
  unfold all_absent in Habs. now rewrite Habs.
Qed.

(** X8: an active sample without any angle is delivered on every tick:
    after [n] ticks on unchanged buffers the listener has received it [n]
    more times. *)
Theorem all_null_sample_delivered_every_tick
    (n : nat) (p : DeviceOrientationEventPump) :
  all_absent (tick_sample p) = true ->
  (tick_sample p).(all_available_sensors_are_active) = true ->
  delivered (tick_n n p) = delivered p ++ repeat (tick_sample p) n
  /\ tick_sample (tick_n n p) = tick_sample p.
Proof.
  intros Habs Hact. unfold tick_n.
  induction n as [| n [IHd IHs]].
  - cbn. now rewrite app_nil_r.
  - rewrite Nat.iter_succ. cbn [repeat].
    rewrite tick_sample_FireEvent. split; [| exact IHs].
    rewrite FireEvent_all_null; rewrite IHs; try assumption.
    cbn [delivered notify_listener set_data]. rewrite IHd.
    rewrite <- app_assoc. f_equal.
    change (repeat (tick_sample p) n ++ [tick_sample p])
      with (repeat (tick_sample p) n ++ repeat (tick_sample p) 1).
    rewrite <- repeat_app. now rewrite Nat.add_1_r.
Qed.

Lemma all_null_sample_delivered_every_tick_witness :
  length (delivered (tick_n 3 (DeviceOrientationEventPump_new false))) = 3.
Proof.
  rewrite (proj1 (@all_null_sample_delivered_every_tick 3
                    (DeviceOrientationEventPump_new false)
                    eq_refl eq_refl)).
  reflexivity.
Defined.

End Ticks.

(** ** What the listener receives over a run *)

Section Deliveries.

Lemma run_cons (ev : Event) (rest : list Event)
    (p : DeviceOrientationEventPump) :
  run (ev :: rest) p = run rest (step ev p).
Proof. reflexivity. Qed.

Lemma ShouldFireEvent_active (last data : OrientationData) :
  ShouldFireEvent last data = true ->
  data.(all_available_sensors_are_active) = true.
Proof.
  unfold ShouldFireEvent.
  destruct (all_available_sensors_are_active data);
    [reflexivity | discriminate].
Qed.

Lemma SendStartMessage_delivered (frame : LocalFrame)
    (p : DeviceOrientationEventPump) :
  delivered (SendStartMessage frame p) = delivered p
  /\ absolute_ (SendStartMessage frame p) = absolute_ p.
Proof.
  unfold SendStartMessage. cbn. destruct (absolute_ p) eqn:E; now split.
Qed.

Lemma SendStopMessage_delivered (p : DeviceOrientationEventPump) :
  delivered (SendStopMessage p) = delivered p.
Proof.
  unfold SendStopMessage. cbn.
  destruct (SensorState_eqb _ SHOULD_SUSPEND && _); reflexivity.
Qed.

Lemma DidStartIfPossible_delivered (p : DeviceOrientationEventPump) :
  delivered (DidStartIfPossible p) = delivered p
  /\ absolute_ (DidStartIfPossible p) = absolute_ p
  /\ sensor_provider_ (DidStartIfPossible p) = sensor_provider_ p
  /\ relative_orientation_sensor_ (DidStartIfPossible p)
     = relative_orientation_sensor_ p.
Proof.
  unfold DidStartIfPossible.
  destruct (sensor_provider_ p) as [provider |] eqn:E;
    [| now repeat split].
  destruct (fallback_condition p); [| now repeat split].
  unfold fall_back_to_absolute. cbn.
  destruct (should_suspend_absolute_orientation_sensor_ p); cbn;
    rewrite ?E; now repeat split.
Qed.

Lemma service_delivered (e : ServiceEvent) (p : DeviceOrientationEventPump) :
  delivered (service e p) = delivered p
  /\ absolute_ (service e p) = absolute_ p.
Proof. destruct e as [t | t | t fresh r]; destruct t; now split. Qed.

(** One event either leaves the listener alone, or is a tick whose sample
    passed the filter and is then both delivered and cached. *)
Lemma step_cases (ev : Event) (p : DeviceOrientationEventPump) :
  (delivered (step ev p) = delivered p
   /\ (data_ (step ev p) = data_ p
       \/ (is_stop ev = true
           /\ data_ (step ev p) = OrientationData_default)))
  \/ (is_tick ev = true
      /\ ShouldFireEvent (data_ p) (tick_sample p) = true
      /\ delivered (step ev p) = delivered p ++ [tick_sample p]
      /\ data_ (step ev p) = tick_sample p).
Proof.
  destruct ev as [[frame | | |] | e]; cbn [step call].
  - left. split; [apply SendStartMessage_delivered |].
    left. apply SendStartMessage_data.
  - left. split; [apply SendStopMessage_delivered |].
    right. now split.
  - left. split; [apply DidStartIfPossible_delivered |].
    left. apply DidStartIfPossible_data.
  - rewrite FireEvent_unfold.
    destruct (ShouldFireEvent (data_ p) (tick_sample p)) eqn:E.
    + right. now repeat split.
    + left. split; [reflexivity | now left].
  - left. split; [apply service_delivered |].
    left. apply service_data.
Qed.

Lemma step_absolute (ev : Event) (p : DeviceOrientationEventPump) :
  absolute_ (step ev p) = absolute_ p.
Proof.
  destruct ev as [[frame | | |] | e]; cbn [step call].
  - apply SendStartMessage_delivered.
  - apply SendStopMessage_channels.
  - apply DidStartIfPossible_delivered.
  - rewrite FireEvent_unfold. destruct (ShouldFireEvent _ _); reflexivity.
  - apply service_delivered.
Qed.

(** X9: over any run the listener's history only grows, by at most one
    sample per tick, and every sample added is an active one. *)
Theorem deliveries_bounded_by_ticks
    (evs : list Event) (p : DeviceOrientationEventPump) :
  exists l,
    delivered (run evs p) = delivered p ++ l
    /\ length l <= ticks evs
    /\ Forall (fun d => d.(all_available_sensors_are_active) = true) l.
Proof.
  revert p. induction evs as [| ev rest IH]; intros p.
  - exists []. cbn. rewrite app_nil_r. repeat split; [lia | constructor].
  - rewrite run_cons.
    destruct (IH (step ev p)) as (l & Hl & Hn & Hall).
    destruct (step_cases ev p) as [[Hd _] | (Ht & Hf & Hd & _)].
    + exists l. rewrite Hl, Hd. repeat split; [| exact Hall].
      unfold ticks in *. cbn [filter]. destruct (is_tick ev); cbn; lia.
    + exists (tick_sample p :: l). rewrite Hl, Hd, <- app_assoc.
      repeat split.
      * unfold ticks in *. cbn [filter]. rewrite Ht. cbn. lia.
      * constructor; [now apply ShouldFireEvent_active in Hf | exact Hall].
Qed.

Lemma absolute_mode_sample (p : DeviceOrientationEventPump) :
  absolute_ p = true ->
  (tick_sample p).(all_available_sensors_are_active) = true ->
  (tick_sample p).(absolute) = true.
Proof.
  intros Ha. unfold tick_sample, GetDataFromSharedMemory. rewrite Ha.
  cbn [negb andb].
  destruct (SensorReadingCouldBeRead _); cbn; [| reflexivity].
  destruct (fne _ zero); cbn; [reflexivity | discriminate].
Qed.

(** X10: a pump in absolute mode only ever delivers samples marked
    absolute. *)
Theorem absolute_mode_delivers_absolute
    (evs : list Event) (p : DeviceOrientationEventPump) :
  absolute_ p = true ->
  exists l,
    delivered (run evs p) = delivered p ++ l
    /\ Forall (fun d => d.(absolute) = true) l.
Proof.
  revert p. induction evs as [| ev rest IH]; intros p Ha.
  - exists []. cbn. rewrite app_nil_r. split; constructor.
  - rewrite run_cons.
    assert (Ha' : absolute_ (step ev p) = true)
      by now rewrite step_absolute.
    destruct (IH (step ev p) Ha') as (l & Hl & Hall).
    destruct (step_cases ev p) as [[Hd _] | (_ & Hf & Hd & _)].
    + exists l. now rewrite Hl, Hd.
    + exists (tick_sample p :: l). rewrite Hl, Hd, <- app_assoc.
      split; [reflexivity |].
      constructor; [| exact Hall].
      apply absolute_mode_sample; [exact Ha |].
      now apply ShouldFireEvent_active in Hf.
Qed.

Lemma last_nonempty_default (x : OrientationData)
    (l : list OrientationData) (a b : OrientationData) :
  last (x :: l) a = last (x :: l) b.
Proof.
  revert x. induction l as [| y rest IH]; intros x; [reflexivity |].
  change (last (y :: rest) a = last (y :: rest) b). apply IH.
Qed.

Lemma well_spaced_snoc (l : list OrientationData) :
  forall (prev d : OrientationData),
    well_spaced prev l ->
    ShouldFireEvent (last l prev) d = true ->
    well_spaced prev (l ++ [d]).
Proof.
  induction l as [| x rest IH]; intros prev d Hw Hf.
  - cbn in *. now split.
  - destruct Hw as [Hx Hrest]. cbn [app well_spaced]. split; [exact Hx |].
    apply IH; [exact Hrest |].
    destruct rest as [| y rest']; [exact Hf |].
    now rewrite (last_nonempty_default y rest' x prev).
Qed.

(** X11: as long as the pump is not stopped, every sample the listener
    receives passed the filter against the sample delivered just before
    it, the first one against the default sample; and the cache holds the
    last sample delivered. *)
Theorem deliveries_well_spaced
    (evs : list Event) (p : DeviceOrientationEventPump) :
  without_stop evs ->
  data_ p = last (delivered p) OrientationData_default ->
  well_spaced OrientationData_default (delivered p) ->
  well_spaced OrientationData_default (delivered (run evs p))
  /\ data_ (run evs p) = last (delivered (run evs p)) OrientationData_default.
Proof.
  unfold without_stop.
  revert p. induction evs as [| ev rest IH]; intros p Hns Hd Hw.
  - now split.
  - cbn [forallb] in Hns. apply andb_true_iff in Hns as [Hev Hrest].
    apply negb_true_iff in Hev.
    rewrite run_cons. apply IH; [exact Hrest | |];
      destruct (step_cases ev p)
        as [[Hdel [Hdat | [Hstop _]]] | (_ & Hf & Hdel & Hdat)];
      try congruence.
    + rewrite Hdel, Hdat. symmetry. apply last_last.
    + rewrite Hdel. apply well_spaced_snoc; [exact Hw | now rewrite <- Hd].
Qed.

Lemma deliveries_well_spaced_witness :
  well_spaced OrientationData_default
    (delivered
       (run [FromScheduler CallFireEvent;
             FromService
               (BufferWritten RELATIVE_ORIENTATION_EULER_ANGLES true
                              reading_unpopulated);
             FromScheduler CallFireEvent]
            (pump_reading_relative reading_populated))).
Proof.
  apply (@deliveries_well_spaced
           [FromScheduler CallFireEvent;
            FromService
              (BufferWritten RELATIVE_ORIENTATION_EULER_ANGLES true
                             reading_unpopulated);
            FromScheduler CallFireEvent]
           (pump_reading_relative reading_populated)).
  - reflexivity.
  - reflexivity.
  - exact I.
Defined.

Lemma absolute_mode_delivers_absolute_witness :
  exists l,
    delivered (run [FromScheduler CallFireEvent]
                   (DeviceOrientationEventPump_new true)) = [] ++ l
    /\ Forall (fun d => d.(absolute) = true) l.
Proof.
  apply (@absolute_mode_delivers_absolute [FromScheduler CallFireEvent]
           (DeviceOrientationEventPump_new true)).
  reflexivity.
Defined.

(** X12: whatever the run, stops included, the cached sample [data_] is
    either the default sample or the last sample the listener received. *)
Theorem cache_is_default_or_last_delivered
    (evs : list Event) (p : DeviceOrientationEventPump) :
  data_ p = OrientationData_default
  \/ data_ p = last (delivered p) OrientationData_default ->
  data_ (run evs p) = OrientationData_default
  \/ data_ (run evs p) = last (delivered (run evs p)) OrientationData_default.
Proof.
  revert p. induction evs as [| ev rest IH]; intros p H; [exact H |].
  rewrite run_cons. apply IH.
  destruct (step_cases ev p)
    as [[Hdel [Hdat | [_ Hdat]]] | (_ & _ & Hdel & Hdat)].
  - now rewrite Hdel, Hdat.
  - now left.
  - right. rewrite Hdel, Hdat. symmetry. apply last_last.
Qed.

Lemma cache_is_default_or_last_delivered_witness :
  data_ (run [FromScheduler CallFireEvent; FromScheduler CallSendStopMessage]
             (pump_reading_relative reading_populated))
  = OrientationData_default
  \/ data_ (run [FromScheduler CallFireEvent;
                 FromScheduler CallSendStopMessage]
                (pump_reading_relative reading_populated))
     = last (delivered
               (run [FromScheduler CallFireEvent;
                     FromScheduler CallSendStopMessage]
                    (pump_reading_relative reading_populated)))
            OrientationData_default.
Proof.
  apply cache_is_default_or_last_delivered. left. reflexivity.
Defined.

End Deliveries.

(** ** The fallback across cycles *)

Section FallbackCycles.

Lemma absolute_mode_no_fallback (evs : list Event) :
  forall p : DeviceOrientationEventPump,
    absolute_ p = true -> fallback_starts p evs = 0.
Proof.
  induction evs as [| ev rest IH]; intros p Ha; [reflexivity |].
  cbn [fallback_starts]. rewrite IH by now rewrite step_absolute.
  unfold fallback_condition. rewrite Ha. cbn. now rewrite andb_false_r.
Qed.

Lemma fallback_starts_bound (evs : list Event) :
  forall p : DeviceOrientationEventPump,
    fallback_starts p evs
    <= starts evs
       + (if fall_back_to_absolute_orientation_sensor_ p then 1 else 0).
Proof.
  unfold starts.
  induction evs as [| ev rest IH]; intros p; [cbn; lia |].
  cbn [fallback_starts filter]. specialize (IH (step ev p)).
  destruct (is_start ev) eqn:Es.
  - destruct ev as [[frame | | |] | e]; try discriminate.
    cbn [is_DidStartIfPossible andb length] in *.
    destruct (fall_back_to_absolute_orientation_sensor_ (step _ p)),
      (fall_back_to_absolute_orientation_sensor_ p); lia.
  - destruct (is_DidStartIfPossible ev && fallback_condition p) eqn:E.
    + apply andb_true_iff in E as [Hd Hf].
      destruct ev as [[frame | | |] | e]; try discriminate.
      cbn [step call] in *.
      rewrite (fallback_condition_pending p Hf).
      destruct (DidStartIfPossible_fallback p Hf) as (provider & _ & Heq).
      rewrite Heq in *.
      rewrite (proj1 (fall_back_to_absolute_flags provider p)) in IH.
      cbn [Nat.add] in *. lia.
    + destruct (fall_back_to_absolute_orientation_sensor_ p) eqn:Ep.
      * destruct (fall_back_to_absolute_orientation_sensor_ (step ev p));
          lia.
      * rewrite (step_keeps_fallback_spent ev p Es Ep) in IH. lia.
Qed.

(** X14: over a run of any length the fallback branch is taken at most
    once per [SendStartMessage], plus once for the flag the run starts
    with; in absolute mode it is never taken. *)
Theorem fallback_starts_per_start
    (evs : list Event) (p : DeviceOrientationEventPump) :
  fallback_starts p evs
  <= starts evs
     + (if fall_back_to_absolute_orientation_sensor_ p then 1 else 0)
  /\ (absolute_ p = true -> fallback_starts p evs = 0).
Proof.
  split; [apply fallback_starts_bound | apply absolute_mode_no_fallback].
Qed.

Lemma fallback_starts_per_start_witness :
  fallback_starts (DeviceOrientationEventPump_new true)
    [FromScheduler (CallSendStartMessage frame_granting);
     FromService (Failed ABSOLUTE_ORIENTATION_EULER_ANGLES);
     FromScheduler CallDidStartIfPossible] = 0.
Proof.
  apply (@fallback_starts_per_start
           [FromScheduler (CallSendStartMessage frame_granting);
            FromService (Failed ABSOLUTE_ORIENTATION_EULER_ANGLES);
            FromScheduler CallDidStartIfPossible]
           (DeviceOrientationEventPump_new true)).
  reflexivity.
Defined.

Lemma SendStartMessage_relative_flags (frame : LocalFrame)
    (p : DeviceOrientationEventPump) :
  absolute_ p = false ->
  fall_back_to_absolute_orientation_sensor_ (SendStartMessage frame p) = true
  /\ should_suspend_absolute_orientation_sensor_ (SendStartMessage frame p)
     = false.
Proof.
  intros H. unfold SendStartMessage. cbn. rewrite H. now split.
Qed.

Lemma step_keeps_no_suspension (ev : Event)
    (p : DeviceOrientationEventPump) :
  is_start ev = false -> is_stop ev = false ->
  should_suspend_absolute_orientation_sensor_ p = false ->
  should_suspend_absolute_orientation_sensor_ (step ev p) = false.
Proof.
  intros Hs Ht Hp.
  destruct ev as [[frame | | |] | e]; cbn [step call]; try discriminate.
  - destruct (fallback_condition p) eqn:E.
    + destruct (DidStartIfPossible_fallback p E) as (provider & _ & ->).
      apply fall_back_to_absolute_flags.
    + now rewrite DidStartIfPossible_idle.
  - now rewrite (proj2 (FireEvent_flags p)).
  - now rewrite (proj2 (service_flags e p)).
Qed.

Lemma run_keeps_no_suspension (evs : list Event) :
  forall p : DeviceOrientationEventPump,
    within_cycle evs -> without_stop evs ->
    should_suspend_absolute_orientation_sensor_ p = false ->
    should_suspend_absolute_orientation_sensor_ (run evs p) = false.
Proof.
  unfold within_cycle, without_stop.
  induction evs as [| ev rest IH]; intros p Hc Hs Hp; [exact Hp |].
  cbn [forallb] in Hc, Hs.
  apply andb_true_iff in Hc as [Hc1 Hc2].
  apply andb_true_iff in Hs as [Hs1 Hs2].
  apply negb_true_iff in Hc1. apply negb_true_iff in Hs1.
  rewrite run_cons. apply IH; [exact Hc2 | exact Hs2 |].
  now apply step_keeps_no_suspension.
Qed.

(** X15: in a cycle of a pump in relative mode during which no stop
    arrives, the fallback starts the absolute channel and leaves it as
    [Start] made it: the [SHOULD_SUSPEND] mark is reserved to cycles in
    which a stop was recorded. *)
Theorem fallback_without_stop_keeps_started_state
    (frame : LocalFrame) (evs : list Event)
    (p : DeviceOrientationEventPump) :
  absolute_ p = false ->
  within_cycle evs -> without_stop evs ->
  fallback_condition (run evs (SendStartMessage frame p)) = true ->
  exists provider,
    sensor_provider_ (run evs (SendStartMessage frame p)) = Some provider
    /\ absolute_orientation_sensor_
         (DidStartIfPossible (run evs (SendStartMessage frame p)))
       = Start provider
           (absolute_orientation_sensor_
              (run evs (SendStartMessage frame p))).
Proof.
  intros Ha Hc Hs Hf.
  assert (Hq : should_suspend_absolute_orientation_sensor_
                 (run evs (SendStartMessage frame p)) = false).
  { apply run_keeps_no_suspension; try assumption.
    now apply SendStartMessage_relative_flags. }
  destruct (DidStartIfPossible_fallback _ Hf) as (provider & Hp & ->).
  exists provider. split; [exact Hp |].
  destruct (fall_back_to_absolute_flags provider
              (run evs (SendStartMessage frame p))) as (_ & _ & H3).
  now rewrite H3, Hq.
Qed.

Lemma fallback_without_stop_keeps_started_state_witness :
  sensor_state
    (absolute_orientation_sensor_
       (DidStartIfPossible
          (run [FromService (Failed RELATIVE_ORIENTATION_EULER_ANGLES)]
               (SendStartMessage frame_granting
                  (DeviceOrientationEventPump_new false)))))
  = INITIALIZING.
Proof.
  destruct (@fallback_without_stop_keeps_started_state frame_granting
              [FromService (Failed RELATIVE_ORIENTATION_EULER_ANGLES)]
              (DeviceOrientationEventPump_new false)
              eq_refl eq_refl eq_refl eq_refl) as (provider & Hp & ->).
  injection Hp as <-. reflexivity.
Defined.

Lemma call_keeps_provider (c : Call) (p : DeviceOrientationEventPump)
    (provider : SensorProvider) :
  sensor_provider_ p = Some provider ->
  sensor_provider_ (call c p) = Some provider.
Proof.
  intros H. destruct c as [frame | | |]; cbn [call].
  - unfold SendStartMessage. cbn. rewrite H.
    destruct (absolute_ p); reflexivity.
  - unfold SendStopMessage. cbn.
    destruct (SensorState_eqb _ SHOULD_SUSPEND && _); exact H.
  - now rewrite (proj1 (proj2 (proj2 (DidStartIfPossible_delivered p)))).
  - rewrite FireEvent_unfold. destruct (ShouldFireEvent _ _); exact H.
Qed.

(** X16: the provider is bound once.  [SendStartMessage] takes it from the
    frame only when none is bound, and no later call, a
    [SendStartMessage] with another frame included, replaces it. *)
Theorem provider_bound_once
    (frame : LocalFrame) (calls : list Call)
    (p : DeviceOrientationEventPump) :
  sensor_provider_ (run_calls calls (SendStartMessage frame p))
  = Some match sensor_provider_ p with
         | Some bound => bound
         | None => interface_provider frame
         end.
Proof.
  assert (H : forall q provider,
             sensor_provider_ q = Some provider ->
             sensor_provider_ (run_calls calls q) = Some provider).
  { induction calls as [| c rest IH]; intros q provider Hq; [exact Hq |].
    cbn [run_calls fold_left]. apply IH. now apply call_keeps_provider. }
  apply H. unfold SendStartMessage. cbn.
  destruct (absolute_ p); reflexivity.
Qed.

(** X17: [SendStopMessage] is idempotent: a second stop changes nothing,
    neither the channels nor the pending-suspension flag. *)
Theorem SendStopMessage_idempotent (p : DeviceOrientationEventPump) :
  SendStopMessage (SendStopMessage p) = SendStopMessage p.
Proof.
  destruct p as [[tr sr rr fr] [ta sa ra fa] a fb ss prov d dl].
  destruct sr, sa, fb, ss; reflexivity.
Qed.

End FallbackCycles.

(** ** Which source a sample comes from *)

Section Attribution.

(** X18: outside absolute mode, an active sample is marked absolute exactly
    when it was read from the absolute channel, that is when the relative
    channel could not be read and the absolute one could. *)
Theorem relative_mode_absolute_flag (p : DeviceOrientationEventPump) :
  absolute_ p = false ->
  (tick_sample p).(all_available_sensors_are_active) = true ->
  ((tick_sample p).(absolute) = true
   <-> SensorReadingCouldBeRead (relative_orientation_sensor_ p) = false
       /\ SensorReadingCouldBeRead (absolute_orientation_sensor_ p) = true).
Proof.
  intros Ha. unfold tick_sample, GetDataFromSharedMemory. rewrite Ha.
  cbn [negb andb].
  destruct (SensorReadingCouldBeRead (relative_orientation_sensor_ p)); cbn.
  - destruct (fne _ zero); cbn; [| discriminate].
    intros _. split; [discriminate | intros [H _]; discriminate].
  - destruct (SensorReadingCouldBeRead (absolute_orientation_sensor_ p)); cbn.
    + destruct (fne _ zero); cbn; [| discriminate].
      intros _. now split.
    + intros _. split; [discriminate | intros [_ H]; discriminate].
Qed.

Lemma relative_mode_absolute_flag_witness :
  (tick_sample
     (run [FromScheduler (CallSendStartMessage frame_granting);
           FromService (Failed RELATIVE_ORIENTATION_EULER_ANGLES);
           FromScheduler CallDidStartIfPossible;
           FromService (Connected ABSOLUTE_ORIENTATION_EULER_ANGLES);
           FromService
             (BufferWritten ABSOLUTE_ORIENTATION_EULER_ANGLES true
                            reading_populated)]
          (DeviceOrientationEventPump_new false))).(absolute) = true.
Proof.
  apply relative_mode_absolute_flag; [reflexivity | reflexivity |].
  split; reflexivity.
Defined.

End Attribution.
